(** * Eyegaze-Module: calibrated gaze tracker

    A shallow embedding of [Assets/Scripts/Research/onnx_calibrated_demo.py]:
    the class [ONNXCalibratedGazeTracker] with its per-frame pipeline
    (detection, gaze estimation, smoothing, screen mapping, clamping), the
    9-point calibration driver and the persistence of the fitted mapper.

    Numbers are rationals ([Q]) where Python uses floats and integers ([Z])
    where it uses ints.  Infinities and NaN have a model of their own
    ([float64], [process_frame_ieee]) for the values [process_frame]
    returns.  Python
    objects that the tracker shares or replaces (filters, mappers) live in
    heaps indexed by locations, so object identity is the identity of the
    location.  Exceptions are an outcome next to the state, because a
    Python exception keeps every mutation made before it was raised. *)

From Stdlib Require Import QArith Qminmax Qround ZArith Lia Lqa Ascii.
From stdpp Require Import gmap strings list fin_maps.

Set Warnings "-register-all".

(** ** Numeric primitives *)

(** Python [int(v)] on a float: truncation toward zero. *)
Definition int_of (q : Q) : Z := Z.quot (Qnum q) (Z.pos (Qden q)).

(** Python [round(v)]: nearest integer, ties to the even neighbour. *)
Definition py_round (q : Q) : Z :=
  let f := Qfloor q in
  match Qcompare (q - inject_Z f) (1 # 2) with
  | Lt => f
  | Gt => (f + 1)%Z
  | Eq => if Z.even f then f else (f + 1)%Z
  end.

(** [np.clip(a, a_min, a_max)] on one component, that is
    [minimum(maximum(a, a_min), a_max)], on finite values; [np_clip_ieee]
    below is the same on every value. *)
Definition np_clip (a a_min a_max : Q) : Q := Qmin (Qmax a a_min) a_max.

(** [np.clip(point, [lo_x, lo_y], [hi_x, hi_y])] on a 2-vector. *)
Definition np_clip2 (p lo hi : Q * Q) : Q * Q :=
  (np_clip (fst p) (fst lo) (fst hi), np_clip (snd p) (snd lo) (snd hi)).

(** ** Exceptions *)

Inductive exn : Set :=
| ValueError                (* unpacking a face box with fewer than 4 entries *)
| TypeError                 (* a reading with a missing component reaches the session *)
| InvalidConfiguration      (* spec §7 *)
| InvalidState              (* spec §7: mapper never fit or loaded *)
| MalformedCalibrationFile  (* spec §7 *)
| NoSuchObject.             (* a location outside its heap; excluded by [wf_world] *)

Inductive Outcome (A : Type) : Type :=
| Return (a : A)
| Raise (e : exn).
Arguments Return {A} a.
Arguments Raise {A} e.

(** ** Stateful computations that may raise

    [M S A]: a computation over a state [S] that returns an [A] or raises;
    the state it reaches is kept in both cases. *)

Definition M (S A : Type) : Type := S -> Outcome A * S.

Definition ret {S A} (a : A) : M S A := fun s => (Return a, s).

Definition raise {S A} (e : exn) : M S A := fun s => (Raise e, s).

Definition bind {S A B} (m : M S A) (k : A -> M S B) : M S B :=
  fun s =>
    match m s with
    | (Return a, s') => k a s'
    | (Raise e, s') => (Raise e, s')
    end.

Definition lift {S A} (o : Outcome A) : M S A := fun s => (o, s).

(** A computation keeps an observation [obs] of the state when it reaches,
    returning or raising, a state with the same observation. *)
Definition keeps {S A X} (obs : S -> X) (m : M S A) : Prop :=
  forall s, obs (snd (m s)) = obs s.

Declare Scope py_scope.
Delimit Scope py_scope with py.
Notation "x <- m ;; k" := (bind m (fun x => k))
  (at level 100, m at next level, right associativity) : py_scope.
Notation "m ;; k" := (bind m (fun _ => k))
  (at level 100, right associativity) : py_scope.

(** ** The smoothing filter ([calibration.GazeFilter]) *)

Module GazeFilter.

Inductive Profile : Set := smooth | balanced | responsive | child.

Definition profile_of (preset : string) : option Profile :=
  if String.eqb preset "smooth" then Some smooth
  else if String.eqb preset "balanced" then Some balanced
  else if String.eqb preset "responsive" then Some responsive
  else if String.eqb preset "child" then Some child
  else None.

(** Modelled from the spec: the class [GazeFilter] of the module
    [calibration], which is not among the sources.  Spec §3 and §4.3: a
    filter owns its state, "smoothed value + recency info"; here the
    smoothed pair, absent until a sample has been seen. *)
Record t : Set := mk { profile : Profile; state : option (Q * Q) }.

(** Modelled from the spec: [create_gaze_filter(preset)] of the module
    [calibration].  Spec §4.3: "Construction takes a named response
    profile from the enumerated set {smooth, balanced, responsive,
    child}"; a name outside the set is a configuration error (§6, §7). *)
Definition create_gaze_filter (preset : string) : Outcome t :=
  match profile_of preset with
  | Some p => Return (mk p None)
  | None => Raise InvalidConfiguration
  end.

(** Modelled from the spec: [GazeFilter.reset].  Spec §4.3: "reset()
    discards internal state". *)
Definition reset (f : t) : t := mk (profile f) None.

Section Smoothing.
(** The per-axis smoothing law of a profile: previous smoothed value
    and new sample to new smoothed value.  The spec fixes no formula
    ("each profile fixes a distinct smoothing strength/lag
    trade-off"), so it is a parameter. *)
Variable blend : Profile -> Q -> Q -> Q.

(** Modelled from the spec: [GazeFilter.filter(x, y)].  Spec §4.3:
    "consumes one new sample and returns the smoothed (x, y), updating
    internal state"; "state is bootstrapped directly from the first
    observation, not blended with a zeroed prior". *)
Definition filter (f : t) (x y : Q) : (Q * Q) * t :=
  match state f with
  | None => ((x, y), mk (profile f) (Some (x, y)))
  | Some (sx, sy) =>
      let out := (blend (profile f) sx x, blend (profile f) sy y) in
      (out, mk (profile f) (Some out))
  end.
End Smoothing.

End GazeFilter.

(** ** The screen mapper ([calibration.PolynomialMapper]) *)

(** The persisted mapper file is "an opaque structured document" (spec
    §6); its values are those of a JSON document. *)
Inductive json : Type :=
| JNull
| JInt (n : Z)
| JFloat (q : Q)
| JStr (s : string)
| JList (l : list json)
| JDict (kv : list (string * json)).

(** What a path on disk holds: text that does not parse as a document, or
    a document. *)
Inductive file : Type :=
| Unparseable
| Parsed (doc : json).

Module PolynomialMapper.

(** Modelled from the spec: the class [PolynomialMapper] of the module
    [calibration], which is not among the sources.  Spec §3:
    "FittedMapper: method tag + coefficient vectors"; the coefficients
    are absent on a mapper that was never fit or loaded. *)
Record t : Type := mk { degree : nat; coeffs : option (list Q * list Q) }.

(** [PolynomialMapper()]: a mapper that is not fit yet. *)
Definition new : t := mk 2 None.

(** Modelled from the spec: the feature vector of a gaze angle.  Spec
    §4.2: "the canonical second-degree multivariate basis {1, pitch,
    yaw, pitch², pitch·yaw, yaw²}"; for degree [d] the monomials
    [pitch^(k-j) * yaw^j] by total degree [k = 0..d], then [j = 0..k]. *)
Definition basis (d : nat) (pitch yaw : Q) : list Q :=
  flat_map (fun k =>
    map (fun j => (pitch ^ Z.of_nat (k - j) * yaw ^ Z.of_nat j)%Q) (seq 0 (S k)))
    (seq 0 (S d)).

Definition basis_size (d : nat) : nat := length (basis d 0 0).

Definition dot (c v : list Q) : Q :=
  fold_right Qplus 0%Q (zip_with Qmult c v).

(** Modelled from the spec: [PolynomialMapper.predict].  Spec §4.2:
    "evaluate both fitted polynomials and return the resulting
    ScreenPoint"; §7: on a mapper never fit or loaded the call signals
    InvalidState. *)
Definition predict (m : t) (gaze : Q * Q) : Outcome (Q * Q) :=
  match coeffs m with
  | None => Raise InvalidState
  | Some (cx, cy) =>
      let phi := basis (degree m) (fst gaze) (snd gaze) in
      Return (dot cx phi, dot cy phi)
  end.


(** Modelled from the spec: [PolynomialMapper.save], the document it
    writes.  Spec §4.2: "save serializes {method tag, degree,
    x-coefficients, y-coefficients}"; a mapper without coefficients has
    nothing to serialize (InvalidState). *)
Definition save (m : t) : Outcome json :=
  match coeffs m with
  | None => Raise InvalidState
  | Some (cx, cy) =>
      Return (JDict [("method", JStr "polynomial");
                     ("degree", JInt (Z.of_nat (degree m)));
                     ("coeffs_x", JList (map JFloat cx));
                     ("coeffs_y", JList (map JFloat cy))])
  end.

Fixpoint get (key : string) (kv : list (string * json)) : option json :=
  match kv with
  | [] => None
  | (k, v) :: rest => if String.eqb k key then Some v else get key rest
  end.

Fixpoint floats (l : list json) : option (list Q) :=
  match l with
  | [] => Some []
  | JFloat q :: rest =>
      match floats rest with
      | Some qs => Some (q :: qs)
      | None => None
      end
  | _ => None
  end.

Definition coefficient_field (key : string) (d : nat) (kv : list (string * json))
  : option (list Q) :=
  match get key kv with
  | Some (JList l) =>
      match floats l with
      | Some qs => if Nat.eqb (length qs) (basis_size d) then Some qs else None
      | None => None
      end
  | _ => None
  end.

(** Modelled from the spec: [PolynomialMapper.load], as the mapper it
    reconstructs from the file.  Spec §6: "Loading validates presence
    and type of every field; any mismatch is a load error, not a
    best-effort partial load"; §4.2: a missing field or an unrecognized
    method tag "fails with a distinct error". *)
Definition load (f : file) : Outcome t :=
  match f with
  | Parsed (JDict kv) =>
      match get "method" kv, get "degree" kv with
      | Some (JStr tag), Some (JInt d) =>
          if String.eqb tag "polynomial" && (0 <=? d)%Z then
            match coefficient_field "coeffs_x" (Z.to_nat d) kv,
                  coefficient_field "coeffs_y" (Z.to_nat d) kv with
            | Some cx, Some cy => Return (mk (Z.to_nat d) (Some (cx, cy)))
            | _, _ => Raise MalformedCalibrationFile
            end
          else Raise MalformedCalibrationFile
      | _, _ => Raise MalformedCalibrationFile
      end
  | _ => Raise MalformedCalibrationFile
  end.

End PolynomialMapper.

(** ** The calibration session ([calibration.GazeCalibrator]) *)

(** What one poll of the gaze source hands back: Python's [None], or the
    tuple [(current_pitch, current_yaw)] whose second component is read
    from a field that may itself hold [None]. *)
Definition Reading : Type := option (Q * option Q).

Module GazeCalibrator.

(** Spec §3, CalibrationPointEstimate: "target index, aggregated
    GazeAngle, target ScreenPoint". *)
Record Estimate : Type :=
  mkEstimate { target_index : nat; gaze : Q * Q; target : Z * Z }.

(** Modelled from the spec: the class [GazeCalibrator] of the module
    [calibration], which is not among the sources; its fields are the
    construction parameters of spec §4.1, the targets ("fixed once") and
    the dataset, present only after a successful run. *)
Record t : Type := mk {
  screen_width : Z;
  screen_height : Z;
  num_points : nat;
  margin : Q;
  samples_per_point : nat;
  sample_delay : Q;
  targets : list (Z * Z);
  dataset : option (list Estimate)
}.

(** The side of the grid when [n] is a perfect square. *)
Definition grid_side (n : nat) : option nat :=
  let k := Nat.sqrt n in
  if Nat.eqb (k * k) n then Some k else None.

(** Modelled from the spec: the pixel coordinate of grid line [i] of [k]
    along a screen dimension.  Spec §3: normalized position "∈ [margin,
    1−margin]"; §4.1: "a regular grid inset by margin fraction of each
    screen dimension from both edges"; §8: pixel values "(rounded)". *)
Definition axis_position (extent : Z) (margin : Q) (k i : nat) : Z :=
  let step := ((1 - 2 * margin) / inject_Z (Z.of_nat (k - 1)))%Q in
  py_round ((margin + inject_Z (Z.of_nat i) * step) * inject_Z extent)%Q.

(** Modelled from the spec: target generation.  Spec §4.1: "enumerated
    row-major (top-left to bottom-right)". *)
Definition generate_targets (width height : Z) (margin : Q) (k : nat)
  : list (Z * Z) :=
  flat_map (fun row =>
    map (fun col =>
      (axis_position width margin k col, axis_position height margin k row))
      (seq 0 k))
    (seq 0 k).

(** Modelled from the spec: [GazeCalibrator(...)].  Spec §4.1:
    "Construction parameters (validated eagerly, fail fast with a
    configuration error if violated): screen width/height (> 0),
    num_points (must be a perfect square), margin (0 ≤ margin < 0.5),
    samples_per_point (> 0), sample_delay (≥ 0 seconds)". *)
Definition new (width height : Z) (n : nat) (margin : Q)
    (samples : nat) (delay : Q) : Outcome t :=
  match grid_side n with
  | Some k =>
      if (0 <? width)%Z && (0 <? height)%Z
         && Qle_bool 0 margin && negb (Qle_bool (1 # 2) margin)
         && Nat.ltb 0 samples && Qle_bool 0 delay
      then Return (mk width height n margin samples delay
                      (generate_targets width height margin k) None)
      else Raise InvalidConfiguration
  | None => Raise InvalidConfiguration
  end.

Section Session.
(** The state the gaze source works on, the source itself (spec §6:
    "a zero-argument operation invoked once per poll"), the per-target
    aggregation statistic (spec §9 leaves it open) and the
    "implementation-defined poll-attempt ceiling" (spec §4.1). *)
Context {S : Type}.
Variable poll : M S Reading.
Variable aggregate : list (Q * Q) -> Q * Q.
Variable poll_ceiling : nat.

Local Open Scope py_scope.

(** Modelled from the spec: steps 3 and 4 of the procedure.  "No
    reading polls are skipped without counting toward the sample
    budget"; "Stop once samples_per_point valid samples are collected
    for this target, or once [the] poll-attempt ceiling is reached".
    [None] is the target that ran into the ceiling.  A reading with a
    missing component is no GazeAngle: using it raises a TypeError. *)
Fixpoint collect_samples (attempts need : nat) (acc : list (Q * Q))
  {struct attempts} : M S (option (list (Q * Q))) :=
  match need with
  | O => ret (Some (rev acc))
  | Datatypes.S need' =>
      match attempts with
      | O => ret None
      | Datatypes.S attempts' =>
          r <- poll ;;
          match r with
          | None => collect_samples attempts' need acc
          | Some (pitch, Some yaw) =>
              collect_samples attempts' need' ((pitch, yaw) :: acc)
          | Some (_, None) => raise TypeError
          end
      end
  end.

(** Modelled from the spec: the loop over the targets in index order,
    with step 5 ("Aggregate the collected samples into one GazeAngle
    [...] and pair it with the target's absolute ScreenPoint").  A
    target without enough samples fails the whole session. *)
Fixpoint capture (samples : nat) (todo : list (nat * (Z * Z)))
    (done : list Estimate) : M S (option (list Estimate)) :=
  match todo with
  | [] => ret (Some (rev done))
  | (i, point) :: rest =>
      got <- collect_samples poll_ceiling samples [] ;;
      match got with
      | None => ret None
      | Some readings =>
          capture samples rest (mkEstimate i (aggregate readings) point :: done)
      end
  end.

(** Modelled from the spec: [GazeCalibrator.run_calibration(callback)].
    Spec §4.1: "run returns success only if every target produced a
    valid estimate; on success the session exposes the completed
    CalibrationDataset [...].  On failure it returns a boolean/failure
    indicator; no partial dataset is exposed for fitting."  The
    calibrator is returned next to the flag: it is the object the
    caller goes on to use.  The settle delay is wall-clock time and is
    not modelled. *)
Definition run_calibration (c : t) : M S (bool * t) :=
  result <- capture (samples_per_point c)
                    (imap (fun i point => (i, point)) (targets c)) [] ;;
  match result with
  | Some estimates =>
      ret (true, mk (screen_width c) (screen_height c) (num_points c)
                    (margin c) (samples_per_point c) (sample_delay c)
                    (targets c) (Some estimates))
  | None => ret (false, c)
  end.
End Session.

Section Fitting.
(** The least-squares solver: design matrix (one row per estimate) and
    target vector to coefficient vector. *)
Variable lstsq : list (list Q) -> list Q -> list Q.

(** Modelled from the spec: [GazeCalibrator.create_mapper(method,
    degree)].  Spec §4.2: "build, for every CalibrationPointEstimate,
    a feature vector [...].  Fit two independent least-squares
    regressions — one predicting screen x, one predicting screen y";
    §4.1: the factory exists on the completed dataset only. *)
Definition create_mapper (c : t) (method : string) (degree : nat)
  : Outcome PolynomialMapper.t :=
  match dataset c with
  | None => Raise InvalidState
  | Some estimates =>
      if String.eqb method "polynomial" then
        let rows := map (fun e => PolynomialMapper.basis degree
                                    (fst (gaze e)) (snd (gaze e))) estimates in
        let xs := map (fun e => inject_Z (fst (target e))) estimates in
        let ys := map (fun e => inject_Z (snd (target e))) estimates in
        Return (PolynomialMapper.mk degree (Some (lstsq rows xs, lstsq rows ys)))
      else Raise InvalidConfiguration
  end.
End Fitting.

End GazeCalibrator.

(** ** The tracker ([ONNXCalibratedGazeTracker]) *)

(** Objects are named by heap locations. *)
Abbreviation loc := positive.

(** A face box after [int(v) for v in box[:4]] and clipping:
    [x_min, y_min, x_max, y_max]. *)
Definition BBox : Type := (Z * Z * Z * Z)%type.

(** The fields of the tracker that the methods below read or write. *)
Record Tracker : Type := mkTracker {
  screen_width : Z;
  screen_height : Z;
  mapper : option loc;
  is_calibrated : bool;
  gaze_filter : option loc;
  screen_filter : option loc;
  filter_enabled : bool;
  current_pitch : option Q;
  current_yaw : option Q;
  current_bbox : option BBox
}.

Definition set_mapper (v : option loc) (t : Tracker) : Tracker :=
  mkTracker (screen_width t) (screen_height t) v (is_calibrated t)
            (gaze_filter t) (screen_filter t) (filter_enabled t)
            (current_pitch t) (current_yaw t) (current_bbox t).

Definition set_is_calibrated (v : bool) (t : Tracker) : Tracker :=
  mkTracker (screen_width t) (screen_height t) (mapper t) v
            (gaze_filter t) (screen_filter t) (filter_enabled t)
            (current_pitch t) (current_yaw t) (current_bbox t).

Definition set_gaze_filter (v : option loc) (t : Tracker) : Tracker :=
  mkTracker (screen_width t) (screen_height t) (mapper t) (is_calibrated t)
            v (screen_filter t) (filter_enabled t)
            (current_pitch t) (current_yaw t) (current_bbox t).

Definition set_screen_filter (v : option loc) (t : Tracker) : Tracker :=
  mkTracker (screen_width t) (screen_height t) (mapper t) (is_calibrated t)
            (gaze_filter t) v (filter_enabled t)
            (current_pitch t) (current_yaw t) (current_bbox t).

Definition set_filter_enabled (v : bool) (t : Tracker) : Tracker :=
  mkTracker (screen_width t) (screen_height t) (mapper t) (is_calibrated t)
            (gaze_filter t) (screen_filter t) v
            (current_pitch t) (current_yaw t) (current_bbox t).

Definition set_current_pitch (v : option Q) (t : Tracker) : Tracker :=
  mkTracker (screen_width t) (screen_height t) (mapper t) (is_calibrated t)
            (gaze_filter t) (screen_filter t) (filter_enabled t)
            v (current_yaw t) (current_bbox t).

Definition set_current_yaw (v : option Q) (t : Tracker) : Tracker :=
  mkTracker (screen_width t) (screen_height t) (mapper t) (is_calibrated t)
            (gaze_filter t) (screen_filter t) (filter_enabled t)
            (current_pitch t) v (current_bbox t).

Definition set_current_bbox (v : option BBox) (t : Tracker) : Tracker :=
  mkTracker (screen_width t) (screen_height t) (mapper t) (is_calibrated t)
            (gaze_filter t) (screen_filter t) (filter_enabled t)
            (current_pitch t) (current_yaw t) v.

(** [__init__], after the ONNX session and the face detector are set up. *)
Definition init (screen_width screen_height : Z) : Tracker :=
  mkTracker screen_width screen_height None false None None true None None None.

(** [get_current_gaze]. *)
Definition get_current_gaze (t : Tracker) : Reading :=
  match current_pitch t with
  | Some pitch => Some (pitch, current_yaw t)
  | None => None
  end.

(** The collaborators outside the tracker: face detection, the ONNX gaze
    estimator behind cropping and preprocessing, the image operations, and
    the parts of the module [calibration] that the spec leaves open. *)
Record Externals (Frame : Type) : Type := mkExternals {
  HAS_FACE_DETECTION : bool;
  (* [RetinaFace()(frame)]: [None], or [(box, landmark, score)] triples *)
  retina_face : Frame -> option (list (list Q * list Q * Q));
  (* [detectMultiScale(gray, 1.1, 5, minSize=(60, 60))]: [(x, y, w, h)] *)
  cascade : Frame -> list (Z * Z * Z * Z);
  (* [frame.shape[0]], [frame.shape[1]] *)
  shape : Frame -> Z * Z;
  (* [cv2.flip(frame, 1)] *)
  flip : Frame -> Frame;
  (* crop [frame[y_min:y_max, x_min:x_max]], [preprocess], [session.run],
     then [float(gaze[0])], [float(gaze[1])] *)
  estimate : Frame -> BBox -> Q * Q;
  blend : GazeFilter.Profile -> Q -> Q -> Q;
  aggregate : list (Q * Q) -> Q * Q;
  poll_ceiling : nat;
  lstsq : list (list Q) -> list Q -> list Q
}.
Arguments HAS_FACE_DETECTION {Frame} _.
Arguments retina_face {Frame} _ _.
Arguments cascade {Frame} _ _.
Arguments shape {Frame} _ _.
Arguments flip {Frame} _ _.
Arguments estimate {Frame} _ _ _.
Arguments blend {Frame} _ _ _ _.
Arguments aggregate {Frame} _ _.
Arguments poll_ceiling {Frame} _.
Arguments lstsq {Frame} _ _ _.

(** Everything a method call can read or change: the tracker object
    ([self]), the filter and mapper objects it may refer to, the files on
    disk and what the capture device ([cap]) will deliver, one entry per
    [cap.read()], [None] for a failed read. *)
Record World (Frame : Type) : Type := mkWorld {
  self : Tracker;
  filter_objs : gmap loc GazeFilter.t;
  mapper_objs : gmap loc PolynomialMapper.t;
  disk : gmap string file;
  cap : list (option Frame)
}.
Arguments mkWorld {Frame} _ _ _ _ _.
Arguments self {Frame} _.
Arguments filter_objs {Frame} _.
Arguments mapper_objs {Frame} _.
Arguments disk {Frame} _.
Arguments cap {Frame} _.

Section Methods.
Context {Frame : Type}.
Variable ext : Externals Frame.

Local Open Scope py_scope.

Definition set_self (t : Tracker) (w : World Frame) : World Frame :=
  mkWorld t (filter_objs w) (mapper_objs w) (disk w) (cap w).

Definition set_filter_objs (h : gmap loc GazeFilter.t) (w : World Frame) : World Frame :=
  mkWorld (self w) h (mapper_objs w) (disk w) (cap w).

Definition set_mapper_objs (h : gmap loc PolynomialMapper.t) (w : World Frame) : World Frame :=
  mkWorld (self w) (filter_objs w) h (disk w) (cap w).

Definition set_disk (d : gmap string file) (w : World Frame) : World Frame :=
  mkWorld (self w) (filter_objs w) (mapper_objs w) d (cap w).

Definition set_cap (c : list (option Frame)) (w : World Frame) : World Frame :=
  mkWorld (self w) (filter_objs w) (mapper_objs w) (disk w) c.

(** Reading [self.field] and assigning [self.field = v]. *)
Definition get_self : M (World Frame) Tracker := fun w => (Return (self w), w).

Definition update_self (f : Tracker -> Tracker) : M (World Frame) unit :=
  fun w => (Return tt, set_self (f (self w)) w).

(** A fresh filter object: [create_gaze_filter(preset)]. *)
Definition new_filter (preset : string) : M (World Frame) loc :=
  fun w =>
    match GazeFilter.create_gaze_filter preset with
    | Return f =>
        let l := fresh (dom (filter_objs w)) in
        (Return l, set_filter_objs (<[l := f]> (filter_objs w)) w)
    | Raise e => (Raise e, w)
    end.

(** [obj.filter(x, y)] on the filter object at [l]. *)
Definition call_filter (l : loc) (x y : Q) : M (World Frame) (Q * Q) :=
  fun w =>
    match filter_objs w !! l with
    | Some f =>
        let r := GazeFilter.filter (blend ext) f x y in
        (Return (fst r), set_filter_objs (<[l := snd r]> (filter_objs w)) w)
    | None => (Raise NoSuchObject, w)
    end.

(** [obj.reset()] on the filter object at [l]. *)
Definition call_reset (l : loc) : M (World Frame) unit :=
  fun w =>
    match filter_objs w !! l with
    | Some f =>
        (Return tt, set_filter_objs (<[l := GazeFilter.reset f]> (filter_objs w)) w)
    | None => (Raise NoSuchObject, w)
    end.

(** A fresh mapper object holding [m]. *)
Definition new_mapper (m : PolynomialMapper.t) : M (World Frame) loc :=
  fun w =>
    let l := fresh (dom (mapper_objs w)) in
    (Return l, set_mapper_objs (<[l := m]> (mapper_objs w)) w).

(** [obj.predict(gaze_input)] on the mapper object at [l]. *)
Definition call_predict (l : loc) (gaze : Q * Q) : M (World Frame) (Q * Q) :=
  fun w =>
    match mapper_objs w !! l with
    | Some m => (PolynomialMapper.predict m gaze, w)
    | None => (Raise NoSuchObject, w)
    end.

(** [obj.save(filepath)] on the mapper object at [l]. *)
Definition call_save (l : loc) (filepath : string) : M (World Frame) unit :=
  fun w =>
    match mapper_objs w !! l with
    | Some m =>
        match PolynomialMapper.save m with
        | Return doc => (Return tt, set_disk (<[filepath := Parsed doc]> (disk w)) w)
        | Raise e => (Raise e, w)
        end
    | None => (Raise NoSuchObject, w)
    end.

(** [obj.load(filepath)] on the mapper object at [l]: the object takes
    the loaded coefficients, or the call raises and leaves it as it is.
    A path with no file behind it cannot be read. *)
Definition call_load (l : loc) (filepath : string) : M (World Frame) unit :=
  fun w =>
    match mapper_objs w !! l, disk w !! filepath with
    | Some _, Some f =>
        match PolynomialMapper.load f with
        | Return m => (Return tt, set_mapper_objs (<[l := m]> (mapper_objs w)) w)
        | Raise e => (Raise e, w)
        end
    | Some _, None => (Raise MalformedCalibrationFile, w)
    | None, _ => (Raise NoSuchObject, w)
    end.

(** [enable_filter]. *)
Definition enable_filter (preset : string) : M (World Frame) unit :=
  g <- new_filter preset ;;
  update_self (set_gaze_filter (Some g)) ;;
  s <- new_filter preset ;;
  update_self (set_screen_filter (Some s)) ;;
  update_self (set_filter_enabled true).

(** [disable_filter].  [if self.gaze_filter:] is the truth value of an
    object reference: false on [None] only. *)
Definition disable_filter : M (World Frame) unit :=
  update_self (set_filter_enabled false) ;;
  t <- get_self ;;
  match gaze_filter t with Some l => call_reset l | None => ret tt end ;;
  t <- get_self ;;
  match screen_filter t with Some l => call_reset l | None => ret tt end.

(** [detect_faces]: boxes with their scores. *)
Definition detect_faces (frame : Frame) : list (list Q * Q) :=
  if HAS_FACE_DETECTION ext then
    match retina_face ext frame with
    | None => []
    | Some faces =>
        map (fun f => (fst (fst f), snd f))
            (List.filter (fun f => negb (Qle_bool (snd f) (5 # 10))) faces)
    end
  else
    map (fun d =>
           let '(x, y, w, h) := d in
           ([inject_Z x; inject_Z y; inject_Z (x + w); inject_Z (y + h)], 1%Q))
        (cascade ext frame).

(** [process_frame], "Apply smoothing filter to gaze angles": the angles
    the frame is reported with. *)
Definition smooth_gaze (gaze : Q * Q) : M (World Frame) (Q * Q) :=
  t <- get_self ;;
  match filter_enabled t, gaze_filter t with
  | true, Some l =>
      out <- call_filter l (fst gaze) (snd gaze) ;;
      update_self (set_current_pitch (Some (fst out))) ;;
      update_self (set_current_yaw (Some (snd out))) ;;
      ret out
  | _, _ => ret gaze
  end.

(** [process_frame], "Map to screen if calibrated", with "Apply
    smoothing filter to screen coordinates" and the final [np.clip]. *)
Definition map_to_screen (angles : Q * Q) : M (World Frame) (option (Q * Q)) :=
  t <- get_self ;;
  match is_calibrated t, mapper t with
  | true, Some m =>
      point <- call_predict m angles ;;
      point <- match filter_enabled t, screen_filter t with
               | true, Some l => call_filter l (fst point) (snd point)
               | _, _ => ret point
               end ;;
      ret (Some (np_clip2 point (0, 0)%Q
                   (inject_Z (screen_width t - 1),
                    inject_Z (screen_height t - 1))))
  | _, _ => ret None
  end.

(** [process_frame], from "Extract and run inference" on. *)
Definition track (frame : Frame) (bbox : BBox)
  : M (World Frame) (option (Q * Q) * option (Q * Q)) :=
  let gaze := estimate ext frame bbox in
  update_self (set_current_pitch (Some (fst gaze))) ;;
  update_self (set_current_yaw (Some (snd gaze))) ;;
  update_self (set_current_bbox (Some bbox)) ;;
  angles <- smooth_gaze gaze ;;
  screen_point <- map_to_screen angles ;;
  ret (Some angles, screen_point).

(** [process_frame], the face box: the first face, its box converted to
    integers and clipped to the frame; [None] when there is no face or
    the clipped box is empty. *)
Definition face_box (frame : Frame) : Outcome (option BBox) :=
  match detect_faces frame with
  | [] => Return None
  | (box, score) :: _ =>
      (* Use first face *)
      match map int_of (take 4 box) with
      | [x_min; y_min; x_max; y_max] =>
          let x_min := Z.max 0 x_min in
          let y_min := Z.max 0 y_min in
          let x_max := Z.min (snd (shape ext frame)) x_max in
          let y_max := Z.min (fst (shape ext frame)) y_max in
          if (x_max <=? x_min)%Z || (y_max <=? y_min)%Z then Return None
          else Return (Some (x_min, y_min, x_max, y_max))
      | _ => Raise ValueError
      end
  end.

(** [process_frame]: "Process frame and return gaze + screen point". *)
Definition process_frame (frame : Frame)
  : M (World Frame) (option (Q * Q) * option (Q * Q)) :=
  update_self (set_current_pitch None) ;;
  update_self (set_current_yaw None) ;;
  update_self (set_current_bbox None) ;;
  found <- lift (face_box frame) ;;
  match found with
  | None => ret (None, None)
  | Some bbox => track frame bbox
  end.

(** [cap.read()]: [(ret, frame)], with [ret] false when no frame comes. *)
Definition cap_read : M (World Frame) (option Frame) :=
  fun w =>
    match cap w with
    | [] => (Return None, w)
    | r :: rest => (Return r, set_cap rest w)
    end.

(** The closure [gaze_callback] of [run_calibration]. *)
Definition gaze_callback : M (World Frame) Reading :=
  r <- cap_read ;;
  match r with
  | None => ret None
  | Some frame =>
      let frame := flip ext frame in
      process_frame frame ;;
      t <- get_self ;;
      ret (get_current_gaze t)
  end.

(** [run_calibration]: "Run 9-point calibration". *)
Definition run_calibration : M (World Frame) bool :=
  t <- get_self ;;
  calibrator <- lift (GazeCalibrator.new (screen_width t) (screen_height t)
                                         9 (15 # 100) 30 (8 # 10)) ;;
  r <- GazeCalibrator.run_calibration gaze_callback (aggregate ext)
                                      (poll_ceiling ext) calibrator ;;
  let success := fst r in
  if success then
    m <- lift (GazeCalibrator.create_mapper (lstsq ext) (snd r) "polynomial" 2) ;;
    l <- new_mapper m ;;
    update_self (set_mapper (Some l)) ;;
    update_self (set_is_calibrated true) ;;
    ret success
  else ret success.

(** [save_calibration].  [if self.mapper:] is the truth value of an
    object reference. *)
Definition save_calibration (filepath : string) : M (World Frame) unit :=
  t <- get_self ;;
  match mapper t with
  | Some l => call_save l filepath
  | None => ret tt
  end.

(** [load_calibration]; [os.path.exists(filepath)] is the presence of
    the path on [disk]. *)
Definition load_calibration (filepath : string) : M (World Frame) bool :=
  w <- (fun w => (Return w, w)) ;;
  if bool_decide (is_Some (disk w !! filepath)) then
    l <- new_mapper PolynomialMapper.new ;;
    update_self (set_mapper (Some l)) ;;
    call_load l filepath ;;
    update_self (set_is_calibrated true) ;;
    ret true
  else ret false.

(** A world in good order: every object the tracker refers to exists, and
    a tracker that counts as calibrated holds a mapper with coefficients.
    References to objects always denote in Python; the second part is what
    [process_frame] relies on when it calls [predict]. *)
Record wf_world (w : World Frame) : Prop := mkWf {
  wf_gaze_filter : forall l, gaze_filter (self w) = Some l -> is_Some (filter_objs w !! l);
  wf_screen_filter : forall l, screen_filter (self w) = Some l -> is_Some (filter_objs w !! l);
  wf_mapper : forall l, mapper (self w) = Some l -> is_Some (mapper_objs w !! l);
  wf_calibrated : forall l m, is_calibrated (self w) = true ->
      mapper (self w) = Some l -> mapper_objs w !! l = Some m ->
      is_Some (PolynomialMapper.coeffs m)
}.

(** The detector's contract: a box has four coordinates or more. *)
Definition boxes_ok : Prop :=
  forall frame box score,
    In (box, score) (detect_faces frame) -> (4 <= length box)%nat.

(** When detection fails: no face, or a first face whose box is empty
    once clipped to the frame. *)
Definition detection_fails (frame : Frame) : Prop :=
  detect_faces frame = []
  \/ exists box score rest x0 y0 x1 y1,
       detect_faces frame = (box, score) :: rest
       /\ map int_of (take 4 box) = [x0; y0; x1; y1]
       /\ ((Z.min (snd (shape ext frame)) x1 <= Z.max 0 x0)%Z
           \/ (Z.min (fst (shape ext frame)) y1 <= Z.max 0 y0)%Z).

(** The gaze angles [process_frame] reports for the raw estimate [raw]:
    smoothed by the gaze filter when filtering is on and there is one. *)
Definition smoothed (w : World Frame) (raw : Q * Q) : Q * Q :=
  match filter_enabled (self w), gaze_filter (self w) with
  | true, Some l =>
      match filter_objs w !! l with
      | Some f => fst (GazeFilter.filter (blend ext) f (fst raw) (snd raw))
      | None => raw
      end
  | _, _ => raw
  end.

(** The calibration a world holds: the tracker's mapper reference, its
    [is_calibrated] flag and the mapper objects. *)
Definition calibration_of (w : World Frame)
  : option loc * bool * gmap loc PolynomialMapper.t :=
  (mapper (self w), is_calibrated (self w), mapper_objs w).

(** Forgetting the reading of the previous frame. *)
Definition forget (w : World Frame) : World Frame :=
  set_self (set_current_bbox None
             (set_current_yaw None (set_current_pitch None (self w)))) w.

End Methods.

(** ** A concrete setting

    A camera whose frames carry what the detector and the estimator will
    find in them, simple stand-ins for the numeric collaborators, and a few
    worlds; the closed examples below run the tracker on them. *)

Module Demo.

Inductive Frame : Set :=
| NoFace
| Face (x_min y_min x_max y_max : Q) (pitch yaw : Q).

Definition mean (l : list Q) : Q :=
  Qred (fold_right Qplus 0 l / inject_Z (Z.of_nat (length l)))%Q.

Definition ext : Externals Frame := {|
  HAS_FACE_DETECTION := true;
  retina_face := fun f =>
    match f with
    | NoFace => None
    | Face x_min y_min x_max y_max _ _ =>
        Some [([x_min; y_min; x_max; y_max], [], 9 # 10)]
    end;
  cascade := fun _ => [];
  shape := fun _ => (480, 640)%Z;
  flip := fun f => f;
  estimate := fun f _ =>
    match f with
    | NoFace => (0, 0)%Q
    | Face _ _ _ _ pitch yaw => (pitch, yaw)
    end;
  blend := fun _ previous sample => Qred ((previous + sample) / 2)%Q;
  aggregate := fun l => (mean (map fst l), mean (map snd l));
  poll_ceiling := 100;
  lstsq := fun _ b => mean b :: repeat 0%Q 5
|}.

(** A face in the middle of the frame, looking at [(pitch, yaw)]. *)
Definition looking (pitch yaw : Q) : Frame :=
  Face 200 120 440 360 pitch yaw.

(** A face box that lies left of the frame. *)
Definition outside : Frame := Face (-300) 120 (-60) 360 0 0.

(** A mapper that sends the gaze far off the screen. *)
Definition steep : PolynomialMapper.t :=
  PolynomialMapper.mk 2 (Some ([960; 0; 40000; 0; 0; 0]%Q,
                               [540; 40000; 0; 0; 0; 0]%Q)).

(** A tracker straight after construction, in front of a camera. *)
Definition started (frames : list (option Frame)) : World Frame :=
  mkWorld (init 1920 1080) ∅ ∅ ∅ frames.

(** A calibrated tracker holding [steep], filters off. *)
Definition calibrated (frames : list (option Frame)) : World Frame :=
  mkWorld (set_filter_enabled false
             (set_is_calibrated true (set_mapper (Some 1%positive) (init 1920 1080))))
          ∅ {[ 1%positive := steep ]} ∅ frames.

(** The same tracker with its two filters on, each with a sample behind
    it. *)
Definition filtered (frames : list (option Frame)) : World Frame :=
  mkWorld (set_screen_filter (Some 2%positive)
             (set_gaze_filter (Some 1%positive)
                (set_is_calibrated true
                   (set_mapper (Some 1%positive) (init 1920 1080)))))
          {[ 1%positive := GazeFilter.mk GazeFilter.balanced (Some (0, 0)%Q);
             2%positive := GazeFilter.mk GazeFilter.balanced (Some (960, 540)%Q) ]}
          {[ 1%positive := steep ]} ∅ frames.

(** A calibration file that lost its coefficient fields. *)
Definition truncated_doc : file :=
  Parsed (JDict [("method", JStr "polynomial"); ("degree", JInt 2)]).

(** The world [w] with the file [f] at [filepath]. *)
Definition on_disk (filepath : string) (f : file) (w : World Frame) : World Frame :=
  set_disk (<[filepath := f]> (disk w)) w.

(** A user who looks at the camera for [n] frames. *)
Definition steady (n : nat) : list (option Frame) :=
  repeat (Some (looking (1 # 10) (-1 # 20))) n.

End Demo.

(** ** Values that are not finite

    A float is not always a number.  The model above keeps to finite
    values; what [process_frame] returns is modelled here once more,
    on every value a float can take. *)

(** A NumPy [float64], rounding apart: a finite value, an infinity or
    NaN. *)
Inductive float64 : Type :=
| Num (q : Q)
| PosInf
| NegInf
| NaN.

(** [np.maximum(a, b)] on one component: the larger of the two, and NaN
    as soon as one of them is NaN. *)
Definition np_maximum (a b : float64) : float64 :=
  match a, b with
  | NaN, _ | _, NaN => NaN
  | PosInf, _ | _, PosInf => PosInf
  | NegInf, v | v, NegInf => v
  | Num p, Num q => Num (Qmax p q)
  end.

(** [np.minimum(a, b)] on one component. *)
Definition np_minimum (a b : float64) : float64 :=
  match a, b with
  | NaN, _ | _, NaN => NaN
  | NegInf, _ | _, NegInf => NegInf
  | PosInf, v | v, PosInf => v
  | Num p, Num q => Num (Qmin p q)
  end.

(** [np.clip(a, a_min, a_max)] on one component, that is
    [minimum(maximum(a, a_min), a_max)], on every value. *)
Definition np_clip_ieee (a a_min a_max : float64) : float64 :=
  np_minimum (np_maximum a a_min) a_max.

Section NonFinite.
Context {Frame : Type}.
Variable ext : Externals Frame.

(** The ONNX estimator behind cropping and preprocessing, as [estimate]
    above, and the calls of [process_frame] into the module
    [calibration] as they answer on this frame:
    [self.gaze_filter.filter(pitch, yaw)],
    [self.mapper.predict(gaze_input)] and
    [self.screen_filter.filter(x, y)].  Each call may raise, and each
    result may hold values that are not finite. *)
Variable estimate_ieee : Frame -> BBox -> float64 * float64.
Variable gaze_filter_ieee : float64 * float64 -> Outcome (float64 * float64).
Variable predict_ieee : float64 * float64 -> Outcome (float64 * float64).
Variable screen_filter_ieee : float64 * float64 -> Outcome (float64 * float64).

(** [process_frame], "Map to screen if calibrated" up to the clamp: the
    value [np.clip] is called on. *)
Definition unclamped (t : Tracker) (angles : float64 * float64)
  : Outcome (float64 * float64) :=
  match predict_ieee angles with
  | Return screen_point =>
      match filter_enabled t, screen_filter t with
      | true, Some _ => screen_filter_ieee screen_point
      | _, _ => Return screen_point
      end
  | Raise e => Raise e
  end.

(** [process_frame], "Map to screen if calibrated" to the end: the
    [screen_point] it returns. *)
Definition map_to_screen_ieee (t : Tracker) (angles : float64 * float64)
  : Outcome (option (float64 * float64)) :=
  match is_calibrated t, mapper t with
  | true, Some _ =>
      match unclamped t angles with
      | Return screen_point =>
          Return (Some (np_clip_ieee (fst screen_point) (Num 0)
                          (Num (inject_Z (screen_width t - 1))),
                        np_clip_ieee (snd screen_point) (Num 0)
                          (Num (inject_Z (screen_height t - 1)))))
      | Raise e => Raise e
      end
  | _, _ => Return None
  end.

(** [process_frame], the value it returns on a tracker with the fields
    [t]: the angles, smoothed when the filter is on, and the screen
    point.  The face box is that of [face_box]; the assignments to
    [current_pitch], [current_yaw] and [current_bbox] are those of
    [process_frame] above. *)
Definition process_frame_ieee (t : Tracker) (frame : Frame)
  : Outcome (option (float64 * float64) * option (float64 * float64)) :=
  match face_box ext frame with
  | Return None => Return (None, None)
  | Return (Some bbox) =>
      let gaze := estimate_ieee frame bbox in
      let filtered_gaze :=
        match filter_enabled t, gaze_filter t with
        | true, Some _ => gaze_filter_ieee gaze
        | _, _ => Return gaze
        end in
      match filtered_gaze with
      | Return angles =>
          match map_to_screen_ieee t angles with
          | Return screen_point => Return (Some angles, screen_point)
          | Raise e => Raise e
          end
      | Raise e => Raise e
      end
  | Raise e => Raise e
  end.

End NonFinite.

(** A coordinate on a screen [extent] pixels long: a finite value in
    [[0, extent - 1]]. *)
Definition on_screen (extent : Z) (v : float64) : Prop :=
  exists q, v = Num q /\ (0 <= q)%Q /\ (q <= inject_Z (extent - 1))%Q.

(** What [np.clip] makes of a coordinate [raw]: a value on the screen,
    unless [raw] is NaN. *)
Definition clamped_or_nan (extent : Z) (raw out : float64) : Prop :=
  match raw with
  | NaN => out = NaN
  | _ => on_screen extent out
  end.

(** A finite pair as a pair of floats. *)
Definition nums (p : Q * Q) : float64 * float64 := (Num (fst p), Num (snd p)).

Definition nums_outcome (o : Outcome (Q * Q)) : Outcome (float64 * float64) :=
  match o with
  | Return p => Return (nums p)
  | Raise e => Raise e
  end.

(** ** The program around the tracker ([main], [draw_visualization]) *)

(** What the methods other than [load_calibration] and [run_calibration]
    never change: the screen size, the calibration, which filter objects
    the tracker holds and whether it uses them, which filter objects
    exist, the mapper objects and the files. *)
Definition settings_of {Frame : Type} (w : World Frame)
  : Z * Z * option loc * bool * option loc * option loc * bool
    * gset loc * gmap loc PolynomialMapper.t * gmap string file :=
  (screen_width (self w), screen_height (self w), mapper (self w),
   is_calibrated (self w), gaze_filter (self w), screen_filter (self w),
   filter_enabled (self w), dom (filter_objs w), mapper_objs w, disk w).

(** How an iteration of the [while True:] loop of [main] ends. *)
Inductive LoopControl : Set := Continue | Break.

(** Python [ord(c)]. *)
Definition ord (c : Ascii.ascii) : Z := Z.of_N (Ascii.N_of_ascii c).
Arguments ord c%_char.

Section Main.
Context {Frame : Type}.
Variable ext : Externals Frame.

Local Open Scope py_scope.

(** [main], the [if key == ord('q'): ... elif ...] chain, for the key
    code [key] and the calibration file [calib_path]. *)
Definition handle_key (calib_path : string) (key : Z)
  : M (World Frame) LoopControl :=
  if (key =? ord "q")%Z then ret Break
  else if (key =? ord "c")%Z then
    run_calibration ext ;; ret Continue
  else if (key =? ord "s")%Z then
    save_calibration calib_path ;; ret Continue
  else if (key =? ord "l")%Z then
    load_calibration calib_path ;; ret Continue
  else if (key =? ord "r")%Z then
    update_self (set_mapper None) ;;
    update_self (set_is_calibrated false) ;;
    ret Continue
  else if (key =? ord "f")%Z then
    (* Toggle filter *)
    t <- get_self ;;
    (if filter_enabled t then disable_filter else enable_filter "balanced") ;;
    ret Continue
  else if (key =? ord "1")%Z then enable_filter "smooth" ;; ret Continue
  else if (key =? ord "2")%Z then enable_filter "balanced" ;; ret Continue
  else if (key =? ord "3")%Z then enable_filter "responsive" ;; ret Continue
  else if (key =? ord "4")%Z then enable_filter "child" ;; ret Continue
  else ret Continue.

(** [main], from [draw_visualization] to [cv2.imshow]: the overlay, the
    two status texts and the frame rate, for the mirrored frame, the
    tracker as [process_frame] left it and the screen point it returned.
    They read the tracker and write to the frame and the window only, and
    they may raise: the overlay divides by [tracker.screen_width] and
    converts with [int], the frame rate is
    [1.0 / (time.time() - start)]. *)
Variable show : Frame -> Tracker -> option (Q * Q) -> Outcome unit.

(** [main], one iteration of the loop.  [waited] is what
    [cv2.waitKey(1)] hands back if the iteration gets that far ([-1] when
    no key is down). *)
Definition main_iteration (calib_path : string) (waited : Z)
  : M (World Frame) LoopControl :=
  r <- cap_read ;;
  match r with
  | None => ret Continue
  | Some frame =>
      let frame := flip ext frame in
      result <- process_frame ext frame ;;
      tracker <- get_self ;;
      lift (show frame tracker (snd result)) ;;
      handle_key calib_path (Z.land waited 255)
  end.



End Main.

(** [main], the frame-rate window: [fps_list.append(fps)], then
    [fps_list.pop(0)] once it holds more than 30 values. *)
Definition push_fps (fps : Q) (fps_list : list Q) : list Q :=
  let appended := fps_list ++ [fps] in
  if Nat.ltb 30 (length appended) then tail appended else appended.

(** [draw_visualization], the minimap: [map_w, map_h = 200, 120] and
    [map_x, map_y = w - map_w - 10, 10] for a frame [w] pixels wide. *)
Definition map_w : Z := 200.
Definition map_h : Z := 120.
Definition map_x (w : Z) : Z := w - map_w - 10.
Definition map_y : Z := 10.

(** [draw_visualization], "Gaze point": the centre [(dot_x, dot_y)] of the
    circles.  Dividing by a zero screen size leaves nothing [int] could
    convert: [None]. *)
Definition gaze_dot (t : Tracker) (w : Z) (screen_point : Q * Q)
  : option (Z * Z) :=
  if (screen_width t =? 0)%Z || (screen_height t =? 0)%Z then None
  else
    Some (int_of (inject_Z (map_x w)
                  + (fst screen_point / inject_Z (screen_width t)) * inject_Z map_w)%Q,
          int_of (inject_Z map_y
                  + (snd screen_point / inject_Z (screen_height t)) * inject_Z map_h)%Q).

(** [draw_visualization], the foot [(cx, cy)] of the gaze arrow. *)
Definition arrow_foot (bbox : BBox) : Z * Z :=
  let '(x_min, y_min, x_max, y_max) := bbox in
  ((x_min + x_max) / 2, (y_min + y_max) / 2)%Z.

(** ** The export script ([convert_l2cs_to_onnx.py]) *)

Module Convert.

(** [key[7:]] when [key.startswith('module.')], else [key]. *)
Definition strip_module (key : string) : string :=
  if String.prefix "module." key
  then String.substring 7 (String.length key - 7) key
  else key.

Section StateDict.
(** The tensors of a checkpoint. *)
Context {Tensor : Type}.

(** [convert_to_onnx], the loop that fills [new_state_dict]: the items of
    [state_dict] in their order, each assigned under its stripped key. *)
Definition remap (state_dict : list (string * Tensor)) : gmap string Tensor :=
  fold_left (fun new_state_dict item =>
               <[strip_module (fst item) := snd item]> new_state_dict)
            state_dict ∅.
End StateDict.

(** The residual blocks of torchvision. *)
Inductive Block : Set := BasicBlock | Bottleneck.

(** What [_make_layer] hands to a block constructor: [inplanes], [planes],
    [stride] and, for [downsample], the channels and stride of its 1x1
    convolution. *)
Record BlockArgs : Set := mkBlockArgs {
  b_inplanes : Z;
  b_planes : Z;
  b_stride : Z;
  b_downsample : option (Z * Z * Z)
}.

Section Layers.
(** [block.expansion], a constant of torchvision. *)
Variable expansion : Block -> Z.

(** [L2CS._make_layer]: the blocks of the layer and the value it leaves
    in [self.inplanes]. *)
Definition _make_layer (inplanes : Z) (block : Block) (planes : Z)
    (blocks : nat) (stride : Z) : list BlockArgs * Z :=
  let downsample :=
    if negb (stride =? 1)%Z || negb (inplanes =? planes * expansion block)%Z
    then Some (inplanes, planes * expansion block, stride)%Z
    else None in
  let first := mkBlockArgs inplanes planes stride downsample in
  let inplanes := (planes * expansion block)%Z in
  (first :: map (fun _ => mkBlockArgs inplanes planes 1 None) (seq 1 (blocks - 1)),
   inplanes).

(** [L2CS.__init__], the four layers and the input width of the two
    fully connected heads; [None] when [layers] has fewer than four
    entries ([layers[3]] raises). *)
Definition L2CS (block : Block) (layers : list nat)
  : option (list (list BlockArgs) * Z) :=
  match layers with
  | l0 :: l1 :: l2 :: l3 :: _ =>
      let inplanes := 64%Z in
      let '(layer1, inplanes) := _make_layer inplanes block 64 l0 1 in
      let '(layer2, inplanes) := _make_layer inplanes block 128 l1 2 in
      let '(layer3, inplanes) := _make_layer inplanes block 256 l2 2 in
      let '(layer4, inplanes) := _make_layer inplanes block 512 l3 2 in
      Some ([layer1; layer2; layer3; layer4], (512 * expansion block)%Z)
  | _ => None
  end.

(** [getArch]: the block and the layer sizes of an architecture name. *)
Definition getArch (arch : string) : Block * list nat :=
  if String.eqb arch "ResNet18" then (BasicBlock, [2; 2; 2; 2]%nat)
  else if String.eqb arch "ResNet34" then (BasicBlock, [3; 4; 6; 3]%nat)
  else if String.eqb arch "ResNet101" then (Bottleneck, [3; 4; 23; 3]%nat)
  else if String.eqb arch "ResNet152" then (Bottleneck, [3; 8; 36; 3]%nat)
  else (Bottleneck, [3; 4; 6; 3]%nat).

(** Blocks that fit together, from [channels] input channels on.  A block
    puts out [planes * expansion] channels.  Each block takes the channels
    the one before it puts out; its shortcut either is the identity, and
    then the block keeps the shape of its input (stride 1, as many
    channels out as in), or a [downsample] convolution from the block's
    input to its output channels with the block's stride. *)
Fixpoint chained (block : Block) (channels : Z) (blocks : list BlockArgs) : Prop :=
  match blocks with
  | [] => True
  | b :: rest =>
      b_inplanes b = channels
      /\ match b_downsample b with
         | None =>
             b_stride b = 1%Z /\ channels = (b_planes b * expansion block)%Z
         | Some (c_in, c_out, stride) =>
             c_in = channels
             /\ c_out = (b_planes b * expansion block)%Z
             /\ stride = b_stride b
         end
      /\ chained block (b_planes b * expansion block) rest
  end.

(** The channels that come out of [blocks] when [channels] go in. *)
Definition out_channels (block : Block) (channels : Z) (blocks : list BlockArgs) : Z :=
  fold_left (fun _ b => (b_planes b * expansion block)%Z) blocks channels.
End Layers.

End Convert.

(** ** More of the concrete setting *)

Module Examples.

(** The setting of [Demo] with the OpenCV cascade for a detector: it finds
    the face of a frame as [(x, y, w, h)]. *)
Definition webcam : Externals Demo.Frame := {|
  HAS_FACE_DETECTION := false;
  retina_face := fun _ => None;
  cascade := fun f =>
    match f with
    | Demo.NoFace => []
    | Demo.Face x_min y_min x_max y_max _ _ =>
        [(int_of x_min, int_of y_min,
          int_of x_max - int_of x_min, int_of y_max - int_of y_min)%Z]
    end;
  shape := shape Demo.ext;
  flip := flip Demo.ext;
  estimate := estimate Demo.ext;
  blend := blend Demo.ext;
  aggregate := aggregate Demo.ext;
  poll_ceiling := poll_ceiling Demo.ext;
  lstsq := lstsq Demo.ext
|}.

(** A calibration file as [save] writes it. *)
Definition saved_doc : file :=
  Parsed (JDict [("method", JStr "polynomial");
                 ("degree", JInt 2);
                 ("coeffs_x", JList (map JFloat [960; 0; 40000; 0; 0; 0]%Q));
                 ("coeffs_y", JList (map JFloat [540; 40000; 0; 0; 0; 0]%Q))]).

(** A checkpoint of a wrapped model, tensors by number. *)
Definition wrapped_checkpoint : list (string * nat) :=
  [("module.conv1.weight", 1%nat); ("module.bn1.weight", 2%nat);
   ("module.fc_yaw_gaze.bias", 3%nat)].

(** A window that shows every frame. *)
Definition window : Demo.Frame -> Tracker -> option (Q * Q) -> Outcome unit :=
  fun _ _ _ => Return tt.

End Examples.

(** * Properties *)

(** ** Numeric primitives *)

Lemma np_clip_bounds (a lo hi : Q) :
  (lo <= hi)%Q -> (lo <= np_clip a lo hi)%Q /\ (np_clip a lo hi <= hi)%Q.
Proof.
  intros Hle. unfold np_clip. split.
  - apply Q.min_glb; [apply Q.le_max_r | exact Hle].
  - apply Q.le_min_r.
Qed.

(** ** Reasoning about computations *)

Lemma bind_Return {S A B} (m : M S A) (k : A -> M S B) s a s' :
  m s = (Return a, s') -> bind m k s = k a s'.
Proof. intros H. unfold bind. now rewrite H. Qed.

Lemma keeps_ret {S A X} (obs : S -> X) (a : A) : keeps obs (ret a).
Proof. now intros s. Qed.

Lemma keeps_raise {S A X} (obs : S -> X) e : keeps obs (@raise S A e).
Proof. now intros s. Qed.

Lemma keeps_lift {S A X} (obs : S -> X) (o : Outcome A) : keeps obs (lift o).
Proof. now intros s. Qed.

Lemma keeps_bind {S A B X} (obs : S -> X) (m : M S A) (k : A -> M S B) :
  keeps obs m -> (forall a, keeps obs (k a)) -> keeps obs (bind m k).
Proof.
  intros Hm Hk s. unfold bind. specialize (Hm s).
  destruct (m s) as [[a | e] s1]; cbn in *.
  - now rewrite Hk.
  - exact Hm.
Qed.

Create HintDb keeps.
#[local] Hint Resolve keeps_ret keeps_raise keeps_lift : keeps.

(** ** The filter *)

Section FilterFacts.
Variable blend : GazeFilter.Profile -> Q -> Q -> Q.

Lemma create_gaze_filter_known preset p :
  GazeFilter.profile_of preset = Some p ->
  GazeFilter.create_gaze_filter preset = Return (GazeFilter.mk p None).
Proof. intros H. unfold GazeFilter.create_gaze_filter. now rewrite H. Qed.

(** A filter without state hands its sample back. *)
Lemma filter_stateless f x y :
  GazeFilter.state f = None ->
  GazeFilter.filter blend f x y
  = ((x, y), GazeFilter.mk (GazeFilter.profile f) (Some (x, y))).
Proof. intros H. unfold GazeFilter.filter. now rewrite H. Qed.
End FilterFacts.

(** ** The calibration targets *)

(** C8: on a 1920x1080 screen with margin 0.15 and 9 points the calibrator
    is accepted and its targets are, row by row from the top left,
    x in 288, 960, 1632 and y in 162, 540, 918. *)
Theorem targets_1920_1080 :
  exists c,
    GazeCalibrator.new 1920 1080 9 (15 # 100) 30 (8 # 10) = Return c
    /\ GazeCalibrator.targets c
       = [(288, 162); (960, 162); (1632, 162);
          (288, 540); (960, 540); (1632, 540);
          (288, 918); (960, 918); (1632, 918)]%Z.
Proof. eexists. split; vm_compute; reflexivity. Qed.

(** ** The tracker: one frame *)

Section FrameFacts.
Context {Frame : Type}.
Variable ext : Externals Frame.

(** The three assignments that open [process_frame]. *)
Lemma process_frame_unfold frame (w : World Frame) :
  process_frame ext frame w
  = match face_box ext frame with
    | Return None => (Return (None, None), forget w)
    | Return (Some bbox) => track ext frame bbox (forget w)
    | Raise e => (Raise e, forget w)
    end.
Proof.
  unfold process_frame, bind, update_self, lift, ret, forget. cbn.
  destruct (face_box ext frame) as [[bbox |] | e]; reflexivity.
Qed.

(** [process_frame] never looks at the reading of the previous frame. *)
Lemma process_frame_forget frame (w : World Frame) :
  process_frame ext frame (forget w) = process_frame ext frame w.
Proof. now rewrite !process_frame_unfold. Qed.

Lemma face_box_fails frame :
  detection_fails ext frame -> face_box ext frame = Return None.
Proof.
  unfold face_box.
  intros [-> | (box & score & rest & x0 & y0 & x1 & y1 & -> & -> & Hempty)];
    [reflexivity |].
  destruct Hempty as [H | H]; apply Z.leb_le in H; rewrite H;
    [reflexivity | now rewrite orb_true_r].
Qed.

(** C10: [process_frame] starts by clearing the reading of the previous
    frame, so its work never depends on it; on a frame where detection
    fails it returns [(None, None)] and leaves the three fields cleared,
    so that [get_current_gaze] answers [None]. *)
Theorem process_frame_clears_reading frame (w : World Frame) :
  process_frame ext frame (forget w) = process_frame ext frame w
  /\ (detection_fails ext frame ->
      exists w',
        process_frame ext frame w = (Return (None, None), w')
        /\ current_pitch (self w') = None
        /\ current_yaw (self w') = None
        /\ current_bbox (self w') = None
        /\ get_current_gaze (self w') = None).
Proof.
  split; [apply process_frame_forget |].
  intros Hfail. exists (forget w).
  rewrite process_frame_unfold, (face_box_fails _ Hfail).
  repeat split.
Qed.

(** The screen point of [track], when there is one, went through
    [np.clip] last. *)
Lemma track_clipped frame bbox (w w' : World Frame) angles point :
  track ext frame bbox w = (Return (angles, Some point), w') ->
  exists raw,
    point = np_clip2 raw (0, 0)%Q
              (inject_Z (screen_width (self w) - 1),
               inject_Z (screen_height (self w) - 1)).
Proof.
  unfold track, smooth_gaze, map_to_screen, bind, update_self, get_self,
    call_filter, call_predict, ret.
  cbn. intros H.
  repeat (case_match; simplify_eq/=); eauto.
Qed.

Lemma inject_Z_pred_nonneg (n : Z) : (1 <= n)%Z -> (0 <= inject_Z (n - 1))%Q.
Proof. intros H. unfold Qle. cbn. lia. Qed.

(** On a screen of positive width and height (spec §6), a screen point
    returned by [process_frame] has x in [0, screen_width - 1] and y in
    [0, screen_height - 1], whatever finite value the mapper
    predicted. *)
Theorem screen_point_within_bounds frame (w w' : World Frame) angles x y :
  (1 <= screen_width (self w))%Z ->
  (1 <= screen_height (self w))%Z ->
  process_frame ext frame w = (Return (angles, Some (x, y)), w') ->
  (0 <= x)%Q /\ (x <= inject_Z (screen_width (self w) - 1))%Q
  /\ (0 <= y)%Q /\ (y <= inject_Z (screen_height (self w) - 1))%Q.
Proof.
  intros HW HH. rewrite process_frame_unfold.
  destruct (face_box ext frame) as [[bbox |] | e]; [| discriminate..].
  intros Htrack. apply track_clipped in Htrack as [raw Hraw].
  cbn in Hraw. injection Hraw as -> ->.
  destruct (np_clip_bounds (fst raw) 0 (inject_Z (screen_width (self w) - 1))
              (inject_Z_pred_nonneg _ HW)).
  destruct (np_clip_bounds (snd raw) 0 (inject_Z (screen_height (self w) - 1))
              (inject_Z_pred_nonneg _ HH)).
  auto.
Qed.

(** Well-formedness only depends on the calibration and filter fields
    and on which objects exist. *)
Lemma wf_world_transfer (w w' : World Frame) :
  gaze_filter (self w') = gaze_filter (self w) ->
  screen_filter (self w') = screen_filter (self w) ->
  mapper (self w') = mapper (self w) ->
  is_calibrated (self w') = is_calibrated (self w) ->
  (forall l, is_Some (filter_objs w !! l) -> is_Some (filter_objs w' !! l)) ->
  mapper_objs w' = mapper_objs w ->
  wf_world w -> wf_world w'.
Proof.
  intros Eg Es Em Ec Hf Ho [Hg Hs Hm Hc].
  constructor; rewrite ?Eg, ?Es, ?Em, ?Ec, ?Ho; auto.
Qed.

Lemma insert_keeps_objects (h : gmap loc GazeFilter.t) l f l' :
  is_Some (h !! l') -> is_Some (<[l := f]> h !! l').
Proof.
  intros H. rewrite lookup_insert_is_Some.
  destruct (decide (l = l')); auto.
Qed.

Lemma wf_world_forget (w : World Frame) : wf_world w -> wf_world (forget w).
Proof. apply wf_world_transfer; auto. Qed.

Lemma predict_returns m gaze :
  is_Some (PolynomialMapper.coeffs m) ->
  exists point, PolynomialMapper.predict m gaze = Return point.
Proof.
  intros [[cx cy] Hc]. unfold PolynomialMapper.predict. rewrite Hc. eauto.
Qed.

(** In a well-formed world the smoothing step returns the smoothed
    angles and writes them over the raw ones. *)
Lemma smooth_gaze_spec raw (w : World Frame) :
  wf_world w ->
  exists w',
    smooth_gaze ext raw w = (Return (smoothed ext w raw), w')
    /\ (current_pitch (self w) = Some (fst raw) ->
        current_pitch (self w') = Some (fst (smoothed ext w raw)))
    /\ (current_yaw (self w) = Some (snd raw) ->
        current_yaw (self w') = Some (snd (smoothed ext w raw)))
    /\ wf_world w'.
Proof.
  intros Hwf.
  unfold smooth_gaze, smoothed, bind, update_self, get_self, call_filter, ret.
  destruct (filter_enabled (self w)); [| eauto].
  destruct (gaze_filter (self w)) as [g |] eqn:Hgf; [| eauto].
  destruct (wf_gaze_filter w Hwf g Hgf) as [fg Hfg]. rewrite Hfg. cbn.
  eexists. split; [reflexivity |].
  split; [cbn; auto | split; [cbn; auto |]].
  eapply wf_world_transfer; [.. | exact Hwf]; cbn; auto.
  intros l. apply insert_keeps_objects.
Qed.

(** In a well-formed world the mapping step returns and leaves the
    tracker's fields alone. *)
Lemma map_to_screen_returns angles (w : World Frame) :
  wf_world w ->
  exists screen_point w',
    map_to_screen ext angles w = (Return screen_point, w')
    /\ self w' = self w
    /\ wf_world w'.
Proof.
  intros Hwf.
  unfold map_to_screen, bind, get_self, call_predict, call_filter, ret.
  destruct (is_calibrated (self w)) eqn:Hcal; [| eauto].
  destruct (mapper (self w)) as [m |] eqn:Hmap; [| eauto].
  destruct (wf_mapper w Hwf m Hmap) as [pm Hpm]. rewrite Hpm.
  destruct (predict_returns pm angles (wf_calibrated w Hwf m pm Hcal Hmap Hpm))
    as [point ->].
  destruct (filter_enabled (self w)); [| eauto].
  destruct (screen_filter (self w)) as [s |] eqn:Hsf; [| eauto].
  destruct (wf_screen_filter w Hwf s Hsf) as [fs Hfs]. rewrite Hfs. cbn.
  eexists _, _. split; [reflexivity |]. split; [reflexivity |].
  eapply wf_world_transfer; [.. | exact Hwf]; cbn; auto.
  intros l. apply insert_keeps_objects.
Qed.

(** In a well-formed world [track] returns, and reports the smoothed
    estimate both as its result and in the tracker's fields. *)
Lemma track_gaze frame bbox (w : World Frame) :
  wf_world w ->
  exists screen_point w',
    track ext frame bbox w
    = (Return (Some (smoothed ext w (estimate ext frame bbox)), screen_point), w')
    /\ current_pitch (self w') = Some (fst (smoothed ext w (estimate ext frame bbox)))
    /\ current_yaw (self w') = Some (snd (smoothed ext w (estimate ext frame bbox)))
    /\ wf_world w'.
Proof.
  intros Hwf. unfold track.
  set (raw := estimate ext frame bbox).
  set (w0 := set_self (set_current_bbox (Some bbox)
               (set_current_yaw (Some (snd raw))
                 (set_current_pitch (Some (fst raw)) (self w)))) w).
  assert (Hwf0 : wf_world w0)
    by (eapply wf_world_transfer; [.. | exact Hwf]; auto).
  destruct (smooth_gaze_spec raw w0 Hwf0) as (w1 & Hsm & Hp & Hy & Hwf1).
  destruct (map_to_screen_returns (smoothed ext w0 raw) w1 Hwf1)
    as (sp & w2 & Hmap & Hself & Hwf2).
  exists sp, w2.
  assert (Hsame : smoothed ext w0 raw = smoothed ext w raw) by reflexivity.
  rewrite <- Hsame.
  split; [| rewrite Hself; auto].
  unfold bind at 1. unfold update_self at 1. cbn beta iota.
  unfold bind at 1. unfold update_self at 1. cbn beta iota.
  unfold bind at 1. unfold update_self at 1. cbn beta iota.
  erewrite bind_Return by exact Hsm.
  erewrite bind_Return by exact Hmap.
  reflexivity.
Qed.

(** A detector that keeps its contract never makes the unpacking of the
    box fail. *)
Lemma face_box_returns frame :
  boxes_ok ext -> exists found, face_box ext frame = Return found.
Proof.
  intros Hok. unfold face_box.
  destruct (detect_faces ext frame) as [| [box score] rest] eqn:Hfaces; [eauto |].
  assert (Hlen : (4 <= length box)%nat).
  { apply (Hok frame box score). rewrite Hfaces. now left. }
  destruct box as [| a [| b [| c [| d box]]]]; cbn in Hlen; try lia.
  cbn. destruct (_ || _); eauto.
Qed.

(** In a well-formed world, with a detector that keeps its contract,
    [process_frame] returns; with a face box it reports the smoothed
    estimate of this frame. *)
Lemma process_frame_returns frame (w : World Frame) :
  wf_world w -> boxes_ok ext ->
  exists result w',
    process_frame ext frame w = (Return result, w')
    /\ wf_world w'
    /\ match face_box ext frame with
       | Return (Some bbox) =>
           let angles := smoothed ext w (estimate ext frame bbox) in
           fst result = Some angles
           /\ current_pitch (self w') = Some (fst angles)
           /\ current_yaw (self w') = Some (snd angles)
       | _ =>
           result = (None, None)
           /\ current_pitch (self w') = None
           /\ current_yaw (self w') = None
       end.
Proof.
  intros Hwf Hok. rewrite process_frame_unfold.
  destruct (face_box_returns frame Hok) as [[bbox |] ->].
  - destruct (track_gaze frame bbox (forget w) (wf_world_forget w Hwf))
      as (sp & w' & Htrack & Hp & Hy & Hwf').
    exists (Some (smoothed ext w (estimate ext frame bbox)), sp), w'.
    split; [exact Htrack |]. split; [exact Hwf' |]. cbn. auto.
  - exists (None, None), (forget w).
    split; [reflexivity |]. split; [now apply wf_world_forget |]. cbn. auto.
Qed.

(** In a well-formed world, with a detector that keeps its contract,
    [gaze_callback] returns, in a well-formed world, [None] or a complete
    pair: the smoothed estimate of the frame just read. *)
Lemma gaze_callback_returns (w : World Frame) :
  wf_world w -> boxes_ok ext ->
  exists reading w',
    gaze_callback ext w = (Return reading, w')
    /\ wf_world w'
    /\ match cap w with
       | Some frame :: _ =>
           match face_box ext (flip ext frame) with
           | Return (Some bbox) =>
               let angles :=
                 smoothed ext w (estimate ext (flip ext frame) bbox) in
               reading = Some (fst angles, Some (snd angles))
               /\ current_pitch (self w') = Some (fst angles)
               /\ current_yaw (self w') = Some (snd angles)
           | _ => reading = None
           end
       | _ => reading = None
       end.
Proof.
  intros Hwf Hok. unfold gaze_callback, bind, cap_read.
  destruct (cap w) as [| [frame |] rest]; [unfold ret; eauto | |].
  all: assert (Hwf1 : wf_world (set_cap rest w))
    by (eapply wf_world_transfer; [.. | exact Hwf]; auto).
  2: unfold ret; eauto.
  destruct (process_frame_returns (flip ext frame) (set_cap rest w) Hwf1 Hok)
    as (result & w' & -> & Hwf' & Hres).
  eexists _, w'. split; [reflexivity |]. split; [exact Hwf' |].
  unfold get_current_gaze.
  destruct (face_box ext (flip ext frame)) as [[bbox |] | e]; cbn in *.
  - destruct Hres as (_ & -> & ->). auto.
  - destruct Hres as (_ & -> & _). reflexivity.
  - destruct Hres as (_ & -> & _). reflexivity.
Qed.

(** Whenever [track] returns, in any world, the angles it returns are the
    ones it left in the tracker's fields, both of them. *)
Lemma track_reports frame bbox (w w' : World Frame) angles screen_point :
  track ext frame bbox w = (Return (angles, screen_point), w') ->
  exists a,
    angles = Some a
    /\ current_pitch (self w') = Some (fst a)
    /\ current_yaw (self w') = Some (snd a).
Proof.
  unfold track, smooth_gaze, map_to_screen, bind, update_self, get_self,
    call_filter, call_predict, ret.
  cbn. intros H.
  repeat (case_match; simplify_eq/=); eexists; repeat split.
Qed.

(** Whenever [gaze_callback] returns, in any world, it returns [None] or a
    complete pair, and [None] unless a frame was read and a face box found
    in it. *)
Lemma gaze_callback_complete (w w' : World Frame) reading :
  gaze_callback ext w = (Return reading, w') ->
  match cap w with
  | Some frame :: _ =>
      match face_box ext (flip ext frame) with
      | Return (Some _) =>
          exists pitch yaw,
            reading = Some (pitch, Some yaw)
            /\ current_pitch (self w') = Some pitch
            /\ current_yaw (self w') = Some yaw
      | _ => reading = None
      end
  | _ => reading = None
  end.
Proof.
  unfold gaze_callback, bind, cap_read, get_self, ret.
  destruct (cap w) as [| [frame |] rest]; [congruence | | congruence].
  rewrite process_frame_unfold.
  destruct (face_box ext (flip ext frame)) as [[bbox |] | e];
    [| intros H; injection H as <- _; reflexivity | discriminate].
  destruct (track ext (flip ext frame) bbox (forget (set_cap rest w)))
    as [[[angles sp] | e] w1] eqn:Htrack; [| discriminate].
  destruct (track_reports _ _ _ _ _ _ Htrack) as (a & _ & Hp & Hy).
  intros H. injection H as <- <-.
  exists (fst a), (snd a). unfold get_current_gaze. rewrite Hp, Hy. auto.
Qed.

(** C5: every call of [gaze_callback] that returns hands back [None] or a
    complete pair [(pitch, yaw)], and [None] when the camera read fails
    and when no face box is found in the frame; its result never depends
    on the reading of a previous frame.  In a well-formed world, with a
    detector that keeps its contract, every call returns, and the pair is
    the smoothed estimate of the frame just read, which is also what the
    tracker's fields hold. *)
Theorem gaze_callback_reading (w : World Frame) :
  fst (gaze_callback ext (forget w)) = fst (gaze_callback ext w)
  /\ (forall reading w',
        gaze_callback ext w = (Return reading, w') ->
        match cap w with
        | Some frame :: _ =>
            match face_box ext (flip ext frame) with
            | Return (Some _) =>
                exists pitch yaw,
                  reading = Some (pitch, Some yaw)
                  /\ current_pitch (self w') = Some pitch
                  /\ current_yaw (self w') = Some yaw
            | _ => reading = None
            end
        | _ => reading = None
        end)
  /\ (wf_world w -> boxes_ok ext ->
      exists reading w',
        gaze_callback ext w = (Return reading, w')
        /\ match cap w with
           | Some frame :: _ =>
               match face_box ext (flip ext frame) with
               | Return (Some bbox) =>
                   let angles :=
                     smoothed ext w (estimate ext (flip ext frame) bbox) in
                   reading = Some (fst angles, Some (snd angles))
                   /\ current_pitch (self w') = Some (fst angles)
                   /\ current_yaw (self w') = Some (snd angles)
               | _ => reading = None
               end
           | _ => reading = None
           end).
Proof.
  split; [| split].
  - unfold gaze_callback, bind, cap_read.
    change (cap (forget w)) with (cap w).
    destruct (cap w) as [| [frame |] rest]; [reflexivity | | reflexivity].
    change (set_cap rest (forget w)) with (forget (set_cap rest w)).
    rewrite process_frame_forget.
    destruct (process_frame ext (flip ext frame) (set_cap rest w)) as [[r | e] w'];
      reflexivity.
  - intros reading w'. apply gaze_callback_complete.
  - intros Hwf Hok.
    destruct (gaze_callback_returns w Hwf Hok) as (reading & w' & Hrun & _ & Hres).
    eauto.
Qed.
End FrameFacts.

(** ** The tracker: the two filters *)

Section FilterOrder.
Context {Frame : Type}.
Variable ext : Externals Frame.

(** [enable_filter] with a known preset: two new filter objects. *)
Lemma enable_filter_spec preset p (w : World Frame) :
  GazeFilter.profile_of preset = Some p ->
  let g : loc := fresh (dom (filter_objs w)) in
  let h := <[g := GazeFilter.mk p None]> (filter_objs w) in
  let s : loc := fresh (dom h) in
  enable_filter preset w
  = (Return tt,
     mkWorld (set_filter_enabled true
                (set_screen_filter (Some s) (set_gaze_filter (Some g) (self w))))
             (<[s := GazeFilter.mk p None]> h)
             (mapper_objs w) (disk w) (cap w))
  /\ g <> s
  /\ filter_objs w !! g = None
  /\ filter_objs w !! s = None.
Proof.
  intros Hp g h s.
  assert (Hg : filter_objs w !! g = None)
    by (apply not_elem_of_dom, is_fresh).
  assert (Hs : h !! s = None) by (apply not_elem_of_dom, is_fresh).
  assert (Hne : g <> s).
  { intros E. subst h. rewrite <- E, lookup_insert_eq in Hs. discriminate. }
  split; [| split; [exact Hne | split; [exact Hg |]]].
  - unfold enable_filter, bind, new_filter, update_self.
    rewrite (create_gaze_filter_known _ _ Hp). reflexivity.
  - subst h. now rewrite lookup_insert_ne in Hs.
Qed.

(** The smoothing step when filtering is on: the gaze filter object takes
    the raw angles. *)
Lemma smooth_gaze_filtered raw (w : World Frame) g fg :
  filter_enabled (self w) = true ->
  gaze_filter (self w) = Some g ->
  filter_objs w !! g = Some fg ->
  let out := GazeFilter.filter (blend ext) fg (fst raw) (snd raw) in
  smooth_gaze ext raw w
  = (Return (fst out),
     mkWorld (set_current_yaw (Some (snd (fst out)))
                (set_current_pitch (Some (fst (fst out))) (self w)))
             (<[g := snd out]> (filter_objs w))
             (mapper_objs w) (disk w) (cap w)).
Proof.
  intros Hen Hgf Hfg out.
  unfold smooth_gaze, bind, get_self, call_filter, update_self, ret.
  rewrite Hen, Hgf, Hfg. reflexivity.
Qed.

(** The mapping step on a calibrated tracker when filtering is on: the
    screen filter object takes the predicted point, the clamp comes
    last. *)
Lemma map_to_screen_filtered angles (w : World Frame) m pm point s fs :
  is_calibrated (self w) = true ->
  mapper (self w) = Some m ->
  mapper_objs w !! m = Some pm ->
  PolynomialMapper.predict pm angles = Return point ->
  filter_enabled (self w) = true ->
  screen_filter (self w) = Some s ->
  filter_objs w !! s = Some fs ->
  let out := GazeFilter.filter (blend ext) fs (fst point) (snd point) in
  map_to_screen ext angles w
  = (Return (Some (np_clip2 (fst out) (0, 0)%Q
                     (inject_Z (screen_width (self w) - 1),
                      inject_Z (screen_height (self w) - 1)))),
     set_filter_objs (<[s := snd out]> (filter_objs w)) w).
Proof.
  intros Hcal Hmap Hpm Hpredict Hen Hsf Hfs out.
  unfold map_to_screen, bind, get_self, call_predict, call_filter, ret.
  rewrite Hcal, Hmap, Hpm, Hpredict, Hen, Hsf, Hfs. reflexivity.
Qed.

(** C4: [enable_filter] creates two distinct filter objects, and on a
    calibrated tracker with filtering on [process_frame] runs them in a
    fixed order: the gaze filter on the raw angles, [predict] on the
    filtered angles, the screen filter on the predicted point, the clamp
    last.  Each filter object ends in the state it reaches from its own
    input; the mapper objects are not touched. *)
Theorem two_filters_in_fixed_order :
  (forall preset p (w : World Frame),
      GazeFilter.profile_of preset = Some p ->
      exists g s w',
        enable_filter preset w = (Return tt, w')
        /\ gaze_filter (self w') = Some g
        /\ screen_filter (self w') = Some s
        /\ g <> s
        /\ filter_objs w !! g = None
        /\ filter_objs w !! s = None
        /\ filter_objs w' !! g = Some (GazeFilter.mk p None)
        /\ filter_objs w' !! s = Some (GazeFilter.mk p None)
        /\ filter_enabled (self w') = true)
  /\ (forall (w : World Frame) frame bbox g s fg fs m pm point,
      filter_enabled (self w) = true ->
      gaze_filter (self w) = Some g ->
      screen_filter (self w) = Some s ->
      g <> s ->
      filter_objs w !! g = Some fg ->
      filter_objs w !! s = Some fs ->
      is_calibrated (self w) = true ->
      mapper (self w) = Some m ->
      mapper_objs w !! m = Some pm ->
      face_box ext frame = Return (Some bbox) ->
      let raw := estimate ext frame bbox in
      let smoothed_gaze := GazeFilter.filter (blend ext) fg (fst raw) (snd raw) in
      PolynomialMapper.predict pm (fst smoothed_gaze) = Return point ->
      let smoothed_point :=
        GazeFilter.filter (blend ext) fs (fst point) (snd point) in
      exists w',
        process_frame ext frame w
        = (Return (Some (fst smoothed_gaze),
                   Some (np_clip2 (fst smoothed_point) (0, 0)%Q
                           (inject_Z (screen_width (self w) - 1),
                            inject_Z (screen_height (self w) - 1)))), w')
        /\ filter_objs w'
           = <[s := snd smoothed_point]> (<[g := snd smoothed_gaze]> (filter_objs w))
        /\ mapper_objs w' = mapper_objs w).
Proof.
  split.
  - intros preset p w Hp.
    destruct (enable_filter_spec preset p w Hp) as (Hrun & Hne & Hg & Hs).
    eexists _, _, _. split; [exact Hrun |]. cbn.
    repeat split; auto.
    + rewrite lookup_insert_ne by auto. apply lookup_insert_eq.
    + apply lookup_insert_eq.
  - intros w frame bbox g s fg fs m pm point Hen Hgf Hsf Hne Hfg Hfs Hcal Hmap Hpm
      Hbox raw smoothed_gaze Hpredict smoothed_point.
    rewrite process_frame_unfold, Hbox. unfold track.
    do 3 (unfold bind at 1; unfold update_self at 1; cbn beta iota).
    erewrite bind_Return
      by (apply (smooth_gaze_filtered _ _ g fg); [exact Hen | exact Hgf | exact Hfg]).
    erewrite bind_Return.
    2:{ apply (map_to_screen_filtered _ _ m pm point s fs); cbn;
        [exact Hcal | exact Hmap | exact Hpm | exact Hpredict | exact Hen
        | exact Hsf | rewrite lookup_insert_ne by exact Hne; exact Hfs]. }
    eexists. split; [reflexivity |]. split; reflexivity.
Qed.

(** [if self.f: self.f.reset()] for a filter field holding [o]: the
    object it names loses its state, every object stays, and an object
    without state stays without. *)
Lemma reset_field_spec (o : option loc) (w : World Frame) :
  (forall l, o = Some l -> is_Some (filter_objs w !! l)) ->
  exists h,
    match o with Some l => call_reset l | None => ret tt end w
    = (Return tt, set_filter_objs h w)
    /\ (forall l, o = Some l ->
          exists f, h !! l = Some f /\ GazeFilter.state f = None)
    /\ (forall l f, filter_objs w !! l = Some f ->
          exists f', h !! l = Some f'
            /\ (GazeFilter.state f = None -> GazeFilter.state f' = None)).
Proof.
  intros Hobj. destruct o as [l0 |].
  - destruct (Hobj l0 eq_refl) as [f0 Hf0].
    exists (<[l0 := GazeFilter.reset f0]> (filter_objs w)).
    split; [unfold call_reset; now rewrite Hf0 |]. split.
    + intros l E. injection E as <-. rewrite lookup_insert_eq. eauto.
    + intros l f Hf. destruct (decide (l0 = l)) as [<- | Hne].
      * rewrite lookup_insert_eq. eauto.
      * rewrite lookup_insert_ne by exact Hne. eauto.
  - exists (filter_objs w). split; [destruct w; reflexivity |]. split.
    + intros l E. discriminate.
    + eauto.
Qed.

(** [disable_filter] in a well-formed world: filtering is off and every
    filter object of the tracker has lost its state, so the next sample
    it is given comes back unchanged. *)
Lemma disable_filter_resets (w : World Frame) :
  wf_world w ->
  exists w',
    disable_filter w = (Return tt, w')
    /\ filter_enabled (self w') = false
    /\ forall l,
         gaze_filter (self w) = Some l \/ screen_filter (self w) = Some l ->
         exists f, filter_objs w' !! l = Some f /\ GazeFilter.state f = None.
Proof.
  intros Hwf.
  set (w0 := set_self (set_filter_enabled false (self w)) w).
  destruct (reset_field_spec (gaze_filter (self w)) w0 (wf_gaze_filter w Hwf))
    as (h1 & Hrun1 & Hgaze1 & Hkeep1).
  set (w1 := set_filter_objs h1 w0).
  assert (Hscreen : forall l, screen_filter (self w) = Some l ->
                      is_Some (filter_objs w1 !! l)).
  { intros l Hl. destruct (wf_screen_filter w Hwf l Hl) as [f Hf].
    destruct (Hkeep1 l f Hf) as (f' & Hf' & _). cbn. eauto. }
  destruct (reset_field_spec (screen_filter (self w)) w1 Hscreen)
    as (h2 & Hrun2 & Hscreen2 & Hkeep2).
  exists (set_filter_objs h2 w1). split; [| split; [reflexivity |]].
  - unfold disable_filter.
    erewrite bind_Return by (unfold update_self; reflexivity).
    erewrite bind_Return by (unfold get_self; reflexivity).
    erewrite bind_Return by exact Hrun1.
    erewrite bind_Return by (unfold get_self; reflexivity).
    exact Hrun2.
  - intros l [Hl | Hl].
    + destruct (Hgaze1 l Hl) as (f & Hf & Hstate).
      destruct (Hkeep2 l f Hf) as (f' & Hf' & Hstate'). cbn. eauto.
    + destruct (Hscreen2 l Hl) as (f & Hf & Hstate). cbn. eauto.
Qed.

(** [enable_filter] keeps a world well-formed. *)
Lemma enable_filter_wf preset p (w w' : World Frame) :
  GazeFilter.profile_of preset = Some p ->
  enable_filter preset w = (Return tt, w') ->
  wf_world w -> wf_world w'.
Proof.
  intros Hp Hrun Hwf.
  destruct (enable_filter_spec preset p w Hp) as (Hspec & Hne & _ & _).
  rewrite Hspec in Hrun. injection Hrun as <-.
  constructor; cbn.
  - intros l E. injection E as <-.
    rewrite lookup_insert_ne by (intros E; exact (Hne (eq_sym E))).
    rewrite lookup_insert_eq. eauto.
  - intros l E. injection E as <-. rewrite lookup_insert_eq. eauto.
  - apply (wf_mapper w Hwf).
  - apply (wf_calibrated w Hwf).
Qed.

(** C7: the first [filter] call on a filter that was just constructed,
    or just reset, returns its input [(x0, y0)] unchanged, and that input
    becomes the filter's state ([create_gaze_filter] raises exactly on a
    name outside the four profiles).  In the tracker: after
    [disable_filter] every filter object it holds returns its next
    sample unchanged, and the first frame processed after
    [enable_filter] is reported with the raw estimate. *)
Theorem first_filter_call_returns_input :
  (forall preset x0 y0,
      match GazeFilter.create_gaze_filter preset with
      | Return f0 =>
          GazeFilter.filter (blend ext) f0 x0 y0
          = ((x0, y0), GazeFilter.mk (GazeFilter.profile f0) (Some (x0, y0)))
      | Raise _ => GazeFilter.profile_of preset = None
      end)
  /\ (forall f x0 y0,
        GazeFilter.filter (blend ext) (GazeFilter.reset f) x0 y0
        = ((x0, y0), GazeFilter.mk (GazeFilter.profile f) (Some (x0, y0))))
  /\ (forall w : World Frame,
        wf_world w ->
        exists w',
          disable_filter w = (Return tt, w')
          /\ forall l,
               gaze_filter (self w) = Some l \/ screen_filter (self w) = Some l ->
               exists f,
                 filter_objs w' !! l = Some f
                 /\ forall x0 y0,
                      fst (GazeFilter.filter (blend ext) f x0 y0) = (x0, y0))
  /\ (forall (w : World Frame) preset p frame bbox,
        wf_world w ->
        GazeFilter.profile_of preset = Some p ->
        face_box ext frame = Return (Some bbox) ->
        exists w1 screen_point w2,
          enable_filter preset w = (Return tt, w1)
          /\ process_frame ext frame w1
             = (Return (Some (estimate ext frame bbox), screen_point), w2)).
Proof.
  split; [| split; [| split]].
  - intros preset x0 y0. unfold GazeFilter.create_gaze_filter.
    destruct (GazeFilter.profile_of preset) as [p |]; reflexivity.
  - reflexivity.
  - intros w Hwf.
    destruct (disable_filter_resets w Hwf) as (w' & Hrun & _ & Hreset).
    exists w'. split; [exact Hrun |].
    intros l Hl. destruct (Hreset l Hl) as (f & Hf & Hstate).
    exists f. split; [exact Hf |].
    intros x0 y0. now rewrite filter_stateless.
  - intros w preset p frame bbox Hwf Hp Hbox.
    destruct (enable_filter_spec preset p w Hp) as (Hrun & Hne & _ & _).
    eexists.
    assert (Hwf1 := enable_filter_wf preset p w _ Hp Hrun Hwf).
    match type of Hwf1 with wf_world ?w1 =>
      destruct (track_gaze ext frame bbox (forget w1) (wf_world_forget w1 Hwf1))
        as (sp & w2 & Htrack & _)
    end.
    exists sp, w2. split; [exact Hrun |].
    rewrite process_frame_unfold, Hbox, Htrack.
    unfold smoothed. cbn.
    rewrite lookup_insert_ne by (intros E; exact (Hne (eq_sym E))).
    rewrite lookup_insert_eq. cbn.
    now destruct (estimate ext frame bbox).
Qed.
End FilterOrder.

(** ** The mapper on disk *)

Section MapperFacts.



End MapperFacts.

Section Persistence.
Context {Frame : Type}.

(** C9: with no file at the path, [load_calibration] returns [False] and
    changes nothing: not the mapper, not [is_calibrated], nor anything
    else. *)
Theorem load_calibration_missing_file filepath (w : World Frame) :
  disk w !! filepath = None ->
  load_calibration filepath w = (Return false, w).
Proof.
  intros Hnone. unfold load_calibration, bind.
  rewrite bool_decide_eq_false_2; [reflexivity |].
  rewrite Hnone. apply is_Some_None.
Qed.

(** [load_calibration] on a file that [load] rejects: the tracker is left
    holding the new, empty mapper object. *)
Lemma load_calibration_rejected filepath f e (w : World Frame) :
  disk w !! filepath = Some f ->
  PolynomialMapper.load f = Raise e ->
  let l : loc := fresh (dom (mapper_objs w)) in
  load_calibration filepath w
  = (Raise e,
     mkWorld (set_mapper (Some l) (self w)) (filter_objs w)
             (<[l := PolynomialMapper.new]> (mapper_objs w)) (disk w) (cap w)).
Proof.
  intros Hfile Hload l. unfold load_calibration, bind.
  rewrite bool_decide_eq_true_2 by (rewrite Hfile; eauto).
  unfold new_mapper, update_self, call_load. cbn.
  fold l. rewrite lookup_insert_eq, Hfile, Hload. reflexivity.
Qed.

(** [load_calibration] on a file that [load] accepts. *)
Lemma load_calibration_accepted filepath f m (w : World Frame) :
  disk w !! filepath = Some f ->
  PolynomialMapper.load f = Return m ->
  let l : loc := fresh (dom (mapper_objs w)) in
  load_calibration filepath w
  = (Return true,
     mkWorld (set_is_calibrated true (set_mapper (Some l) (self w))) (filter_objs w)
             (<[l := m]> (mapper_objs w)) (disk w) (cap w)).
Proof.
  intros Hfile Hload l. unfold load_calibration, bind.
  rewrite bool_decide_eq_true_2 by (rewrite Hfile; eauto).
  unfold new_mapper, update_self, call_load, ret. cbn.
  fold l. rewrite lookup_insert_eq, Hfile, Hload. cbn.
  now rewrite insert_insert_eq.
Qed.

End Persistence.

(** ** The calibration session *)

Section SessionFacts.
Context {S X : Type}.
Variable obs : S -> X.
Variable poll : M S Reading.
Variable aggregate : list (Q * Q) -> Q * Q.
Variable poll_ceiling : nat.
Hypothesis poll_keeps : keeps obs poll.

(** The session reaches the state only through the gaze source: what
    every poll keeps, the session keeps. *)
Lemma collect_samples_keeps attempts :
  forall need acc,
    keeps obs (GazeCalibrator.collect_samples poll attempts need acc).
Proof.
  induction attempts as [| attempts IH]; intros [| need] acc; cbn;
    auto with keeps.
  apply keeps_bind; [exact poll_keeps |].
  intros [[pitch [yaw |]] |]; auto with keeps.
Qed.

Lemma capture_keeps samples todo :
  forall done,
    keeps obs (GazeCalibrator.capture poll aggregate poll_ceiling samples todo done).
Proof.
  induction todo as [| [i point] rest IH]; intros done; cbn; auto with keeps.
  apply keeps_bind; [apply collect_samples_keeps |].
  intros [readings |]; auto with keeps.
Qed.

Lemma session_keeps c :
  keeps obs (GazeCalibrator.run_calibration poll aggregate poll_ceiling c).
Proof.
  unfold GazeCalibrator.run_calibration.
  apply keeps_bind; [apply capture_keeps |].
  intros [estimates |]; auto with keeps.
Qed.

(** A session that reports failure hands back the calibrator it was
    given, with no dataset on it when there was none before; one that
    reports success hands back a dataset. *)
Lemma session_dataset c s flag c' s' :
  GazeCalibrator.run_calibration poll aggregate poll_ceiling c s
  = (Return (flag, c'), s') ->
  if flag then is_Some (GazeCalibrator.dataset c') else c' = c.
Proof.
  unfold GazeCalibrator.run_calibration, bind, ret.
  destruct (GazeCalibrator.capture _ _ _ _ _ _ s) as [[[estimates |] | e] s1];
    intros H; simplify_eq; cbn; eauto.
Qed.
End SessionFacts.

Section SessionReturns.
Context {S : Type}.
Variable inv : S -> Prop.
Variable poll : M S Reading.
Variable aggregate : list (Q * Q) -> Q * Q.
Variable poll_ceiling : nat.
Hypothesis poll_returns :
  forall s, inv s ->
    exists reading s',
      poll s = (Return reading, s') /\ inv s'
      /\ (reading = None \/ exists pitch yaw, reading = Some (pitch, Some yaw)).

(** A gaze source that always returns, with complete readings, makes the
    session return: the ceiling bounds the polls of every target. *)
Lemma collect_samples_returns attempts :
  forall need acc s, inv s ->
    exists got s',
      GazeCalibrator.collect_samples poll attempts need acc s = (Return got, s')
      /\ inv s'.
Proof.
  induction attempts as [| attempts IH]; intros [| need] acc s Hs; cbn;
    unfold ret; eauto.
  destruct (poll_returns s Hs) as (reading & s1 & Hpoll & Hs1 & Hshape).
  erewrite bind_Return by exact Hpoll.
  destruct Hshape as [-> | (pitch & yaw & ->)]; apply IH; exact Hs1.
Qed.

Lemma capture_returns samples todo :
  forall done s, inv s ->
    exists result s',
      GazeCalibrator.capture poll aggregate poll_ceiling samples todo done s
      = (Return result, s')
      /\ inv s'.
Proof.
  induction todo as [| [i point] rest IH]; intros done s Hs; cbn;
    unfold ret; eauto.
  destruct (collect_samples_returns poll_ceiling samples [] s Hs)
    as (got & s1 & Hgot & Hs1).
  erewrite bind_Return by exact Hgot.
  destruct got as [readings |]; [apply IH; exact Hs1 | unfold ret; eauto].
Qed.

Lemma session_returns c s :
  inv s ->
  exists flag c' s',
    GazeCalibrator.run_calibration poll aggregate poll_ceiling c s
    = (Return (flag, c'), s')
    /\ inv s'.
Proof.
  intros Hs. unfold GazeCalibrator.run_calibration.
  destruct (capture_returns (GazeCalibrator.samples_per_point c)
              (imap (fun i point => (i, point)) (GazeCalibrator.targets c)) [] s Hs)
    as (result & s1 & Hrun & Hs1).
  erewrite bind_Return by exact Hrun.
  destruct result as [estimates |]; unfold ret; eauto.
Qed.
End SessionReturns.

Section CalibrationFacts.
Context {Frame : Type}.
Variable ext : Externals Frame.

Lemma update_current_keeps (f : Tracker -> Tracker) :
  (forall t, mapper (f t) = mapper t) ->
  (forall t, is_calibrated (f t) = is_calibrated t) ->
  keeps (@calibration_of Frame) (update_self f).
Proof.
  intros Hm Hc w. unfold calibration_of, update_self. cbn. now rewrite Hm, Hc.
Qed.

Lemma get_self_keeps : keeps (@calibration_of Frame) get_self.
Proof. now intros w. Qed.

Lemma call_filter_keeps l x y :
  keeps (@calibration_of Frame) (call_filter ext l x y).
Proof. intros w. unfold call_filter. now destruct (filter_objs w !! l). Qed.

Lemma call_predict_keeps l gaze :
  keeps (@calibration_of Frame) (call_predict l gaze).
Proof. intros w. unfold call_predict. now destruct (mapper_objs w !! l). Qed.

Lemma cap_read_keeps : keeps (@calibration_of Frame) cap_read.
Proof. intros w. unfold cap_read. now destruct (cap w). Qed.

#[local] Hint Resolve update_current_keeps get_self_keeps call_filter_keeps
  call_predict_keeps cap_read_keeps keeps_bind : keeps.

(** Processing a frame leaves the calibration alone. *)
Lemma process_frame_keeps frame :
  keeps (@calibration_of Frame) (process_frame ext frame).
Proof.
  unfold process_frame, track, smooth_gaze, map_to_screen.
  repeat (first
    [ apply keeps_bind; [| intros ?]
    | apply update_current_keeps; reflexivity
    | match goal with
      | |- keeps _ (match ?x with _ => _ end) => destruct x
      end
    | solve [auto with keeps] ]).
Qed.

Lemma gaze_callback_keeps : keeps (@calibration_of Frame) (gaze_callback ext).
Proof.
  unfold gaze_callback.
  apply keeps_bind; [apply cap_read_keeps |].
  intros [frame |]; [| auto with keeps].
  apply keeps_bind; [apply process_frame_keeps |].
  intros _. apply keeps_bind; [apply get_self_keeps | auto with keeps].
Qed.

(** Unless [run_calibration] returns [True], the calibration is what it
    was; this holds in every world, also when something raised. *)
Lemma run_calibration_keeps (w : World Frame) :
  fst (run_calibration ext w) <> Return true ->
  calibration_of (snd (run_calibration ext w)) = calibration_of w.
Proof.
  unfold run_calibration, bind, get_self, lift.
  destruct (GazeCalibrator.new _ _ _ _ _ _) as [c | e]; [| reflexivity].
  pose proof (session_keeps (@calibration_of Frame) (gaze_callback ext)
                (aggregate ext) (poll_ceiling ext)
                gaze_callback_keeps c w) as Hkeep.
  destruct (GazeCalibrator.run_calibration _ _ _ c w) as [[[flag c'] | e] w1];
    cbn in Hkeep; [| intros _; exact Hkeep].
  destruct flag; [| intros _; exact Hkeep].
  destruct (GazeCalibrator.create_mapper _ _ _ _) as [m | e];
    [| intros _; exact Hkeep].
  cbn. congruence.
Qed.

Lemma calibrator_new_returns width height :
  (1 <= width)%Z -> (1 <= height)%Z ->
  exists c,
    GazeCalibrator.new width height 9 (15 # 100) 30 (8 # 10) = Return c
    /\ GazeCalibrator.dataset c = None.
Proof.
  intros Hw Hh. unfold GazeCalibrator.new.
  change (GazeCalibrator.grid_side 9) with (Some 3%nat).
  assert (Ew : (0 <? width)%Z = true) by (apply Z.ltb_lt; lia).
  assert (Eh : (0 <? height)%Z = true) by (apply Z.ltb_lt; lia).
  rewrite Ew, Eh. cbn. eauto.
Qed.

(** C3: unless [run_calibration] returns [True], in any world, the
    tracker's mapper and [is_calibrated] are what they were and no mapper
    object has been created.  In a well-formed world, with a detector that
    keeps its contract and a screen of positive size, [run_calibration]
    returns a boolean, the flag of the session it ran.  When the flag is
    [False] the session exposes no dataset.  When it is [True] the mapper
    fit from the session's dataset is a new object, the tracker refers to
    it, and [is_calibrated] is set. *)
Theorem run_calibration_outcome (w : World Frame) :
  (fst (run_calibration ext w) <> Return true ->
   mapper (self (snd (run_calibration ext w))) = mapper (self w)
   /\ is_calibrated (self (snd (run_calibration ext w))) = is_calibrated (self w)
   /\ mapper_objs (snd (run_calibration ext w)) = mapper_objs w)
  /\ (wf_world w -> boxes_ok ext ->
      (1 <= screen_width (self w))%Z -> (1 <= screen_height (self w))%Z ->
      exists c flag c' w1 w',
        GazeCalibrator.new (screen_width (self w)) (screen_height (self w))
                           9 (15 # 100) 30 (8 # 10) = Return c
        /\ GazeCalibrator.run_calibration (gaze_callback ext) (aggregate ext)
                                          (poll_ceiling ext) c w
           = (Return (flag, c'), w1)
        /\ run_calibration ext w = (Return flag, w')
        /\ if flag then
             is_calibrated (self w') = true
             /\ exists l m,
                  GazeCalibrator.create_mapper (lstsq ext) c' "polynomial" 2 = Return m
                  /\ mapper (self w') = Some l
                  /\ mapper_objs w !! l = None
                  /\ mapper_objs w' = <[l := m]> (mapper_objs w)
           else
             w' = w1
             /\ GazeCalibrator.dataset c' = None
             /\ mapper (self w') = mapper (self w)
             /\ is_calibrated (self w') = is_calibrated (self w)
             /\ mapper_objs w' = mapper_objs w).
Proof.
  split.
  { intros Hnot. pose proof (run_calibration_keeps w Hnot) as Hkeep.
    unfold calibration_of in Hkeep. injection Hkeep as Hmap Hcal Hobjs. auto. }
  intros Hwf Hok Hwidth Hheight.
  destruct (calibrator_new_returns _ _ Hwidth Hheight) as (c & Hnew & Hnone).
  assert (Hpoll : forall s : World Frame, wf_world s ->
            exists reading s',
              gaze_callback ext s = (Return reading, s') /\ wf_world s'
              /\ (reading = None
                  \/ exists pitch yaw, reading = Some (pitch, Some yaw))).
  { intros s Hs.
    destruct (gaze_callback_returns ext s Hs Hok) as (reading & s' & Hrun & Hs' & Hr).
    exists reading, s'. split; [exact Hrun |]. split; [exact Hs' |].
    destruct (cap s) as [| [frame |] rest]; auto.
    destruct (face_box ext (flip ext frame)) as [[bbox |] | e]; auto.
    destruct Hr as (-> & _). eauto. }
  destruct (session_returns wf_world (gaze_callback ext) (aggregate ext)
              (poll_ceiling ext) Hpoll c w Hwf) as (flag & c' & w1 & Hrun & _).
  pose proof (session_keeps (@calibration_of Frame) (gaze_callback ext)
                (aggregate ext) (poll_ceiling ext)
                gaze_callback_keeps c w) as Hkeep.
  pose proof (session_dataset _ _ _ _ _ _ _ _ Hrun) as Hdata.
  rewrite Hrun in Hkeep. cbn in Hkeep. injection Hkeep as Hmap Hcal Hobjs.
  exists c, flag, c'. exists w1.
  unfold run_calibration, bind, get_self, lift. rewrite Hnew, Hrun. cbn.
  destruct flag.
  - destruct Hdata as [estimates Hdata].
    unfold GazeCalibrator.create_mapper at 1. rewrite Hdata. cbn.
    eexists. do 3 (split; [reflexivity |]). cbn.
    split; [reflexivity |].
    eexists _, _. split.
    { unfold GazeCalibrator.create_mapper. rewrite Hdata. reflexivity. }
    split; [reflexivity |].
    split; [apply not_elem_of_dom; rewrite <- Hobjs; apply is_fresh |].
    now rewrite Hobjs.
  - subst c'. exists w1. do 3 (split; [reflexivity |]). auto.
Qed.
End CalibrationFacts.

(** ** The concrete setting *)

Section DemoFacts.

Lemma demo_boxes_ok : boxes_ok Demo.ext.
Proof.
  intros [| x0 y0 x1 y1 pitch yaw] box score; cbn; [tauto |].
  intros [H | []]. injection H as <- _. cbn. lia.
Qed.

Lemma demo_started_wf frames : wf_world (Demo.started frames).
Proof. constructor; cbn; intros; discriminate. Qed.

Lemma demo_calibrated_wf frames : wf_world (Demo.calibrated frames).
Proof.
  constructor; cbn; intros; try discriminate; simplify_eq.
  - rewrite lookup_singleton_eq. eauto.
  - rewrite lookup_singleton_eq in *. simplify_eq. cbn. eauto.
Qed.

Lemma demo_filtered_wf frames : wf_world (Demo.filtered frames).
Proof.
  constructor; cbn; intros; simplify_eq.
  - rewrite lookup_insert_eq. eauto.
  - rewrite lookup_insert_ne by lia. rewrite lookup_singleton_eq. eauto.
  - rewrite lookup_singleton_eq. eauto.
  - rewrite lookup_singleton_eq in *. simplify_eq. cbn. eauto.
Qed.

End DemoFacts.

(** ** Values that are not finite *)

Section NonFiniteFacts.
Context {Frame : Type}.
Variable ext : Externals Frame.
Variable estimate_ieee : Frame -> BBox -> float64 * float64.
Variable gaze_filter_ieee : float64 * float64 -> Outcome (float64 * float64).
Variable predict_ieee : float64 * float64 -> Outcome (float64 * float64).
Variable screen_filter_ieee : float64 * float64 -> Outcome (float64 * float64).

(** On finite values [np_clip_ieee] is [np_clip]. *)
Lemma np_clip_ieee_num (a a_min a_max : Q) :
  np_clip_ieee (Num a) (Num a_min) (Num a_max) = Num (np_clip a a_min a_max).
Proof. reflexivity. Qed.

(** The clamp puts every value but NaN on the screen, the infinities at
    its two ends. *)
Lemma np_clip_ieee_clamped (extent : Z) (raw : float64) :
  (1 <= extent)%Z ->
  clamped_or_nan extent raw
    (np_clip_ieee raw (Num 0) (Num (inject_Z (extent - 1)))).
Proof.
  intros Hextent. pose proof (inject_Z_pred_nonneg extent Hextent) as Hhi.
  destruct raw as [q | | |]; cbn.
  - exists (np_clip q 0 (inject_Z (extent - 1))).
    split; [reflexivity | now apply np_clip_bounds].
  - exists (inject_Z (extent - 1)).
    split; [reflexivity | split; [exact Hhi | apply Qle_refl]].
  - exists (Qmin 0 (inject_Z (extent - 1))).
    split; [reflexivity | split].
    + apply Q.min_glb; [apply Qle_refl | exact Hhi].
    + apply Q.le_min_r.
  - reflexivity.
Qed.

(** On finite values the screen point is the one of [map_to_screen]:
    with the mapper and the screen filter of a world [w] answering, the
    two models return the same point or raise the same exception. *)
Lemma map_to_screen_ieee_on_nums angles (w : World Frame) :
  map_to_screen_ieee
    (fun _ =>
       match mapper (self w) with
       | Some m => nums_outcome (fst (call_predict m angles w))
       | None => Raise NoSuchObject
       end)
    (fun point =>
       match screen_filter (self w), point with
       | Some l, (Num x, Num y) => nums_outcome (fst (call_filter ext l x y w))
       | _, _ => Raise NoSuchObject
       end)
    (self w) (nums angles)
  = match fst (map_to_screen ext angles w) with
    | Return point => Return (option_map nums point)
    | Raise e => Raise e
    end.
Proof.
  unfold map_to_screen_ieee, unclamped, map_to_screen, bind, get_self,
    call_predict, call_filter, ret, nums_outcome.
  cbn.
  destruct (is_calibrated (self w)); [| reflexivity].
  destruct (mapper (self w)) as [m |]; [| reflexivity].
  destruct (mapper_objs w !! m) as [obj |]; [| reflexivity]. cbn.
  destruct (PolynomialMapper.predict obj angles) as [[x y] | e];
    [| reflexivity]. cbn.
  destruct (filter_enabled (self w)); [| reflexivity].
  destruct (screen_filter (self w)) as [l |]; [| reflexivity].
  destruct (filter_objs w !! l) as [f |]; reflexivity.
Qed.

(** C2, as amended: on a screen of positive width and height (spec §6),
    a screen point returned by [process_frame] is the clamp of what the
    mapper predicted for the returned angles (of what the screen filter
    made of it, when filtering is on): each coordinate is finite and on
    the screen, x in [0, screen_width - 1] and y in
    [0, screen_height - 1], whatever finite or infinite value reached the
    clamp; a coordinate that reached it as NaN is returned as NaN. *)
Theorem screen_point_within_bounds_unless_nan (t : Tracker) frame angles point :
  (1 <= screen_width t)%Z ->
  (1 <= screen_height t)%Z ->
  process_frame_ieee ext estimate_ieee gaze_filter_ieee predict_ieee
    screen_filter_ieee t frame
  = Return (angles, Some point) ->
  exists gaze raw,
    angles = Some gaze
    /\ unclamped predict_ieee screen_filter_ieee t gaze = Return raw
    /\ clamped_or_nan (screen_width t) (fst raw) (fst point)
    /\ clamped_or_nan (screen_height t) (snd raw) (snd point).
Proof.
  intros HW HH. unfold process_frame_ieee.
  destruct (face_box ext frame) as [[bbox |] | e]; [| discriminate..].
  cbv zeta.
  destruct (match filter_enabled t, gaze_filter t with
            | true, Some _ => gaze_filter_ieee (estimate_ieee frame bbox)
            | _, _ => Return (estimate_ieee frame bbox)
            end) as [gaze | e]; [| discriminate].
  unfold map_to_screen_ieee.
  destruct (is_calibrated t); [| discriminate].
  destruct (mapper t) as [m |]; [| discriminate].
  destruct (unclamped predict_ieee screen_filter_ieee t gaze)
    as [raw | e] eqn:Hraw; [| discriminate].
  intros [= <- <-]. exists gaze, raw. cbn [fst snd].
  split; [reflexivity | split; [exact Hraw | split]];
    now apply np_clip_ieee_clamped.
Qed.
End NonFiniteFacts.

(** * Concrete runs *)

Lemma screen_point_within_bounds_witness :
  exists angles x y w',
    process_frame Demo.ext (Demo.looking (1 # 10) (1 # 10)) (Demo.calibrated [])
    = (Return (angles, Some (x, y)), w')
    /\ (0 <= x)%Q /\ (x <= 1919)%Q /\ (0 <= y)%Q /\ (y <= 1079)%Q.
Proof.
  eexists _, _, _, _. split.
  - vm_compute. reflexivity.
  - refine (screen_point_within_bounds Demo.ext
              (Demo.looking (1 # 10) (1 # 10)) (Demo.calibrated []) _ _ _ _ _ _ _).
    + cbn. lia.
    + cbn. lia.
    + vm_compute. reflexivity.
Defined.

Lemma load_calibration_missing_file_witness :
  load_calibration "calibration_onnx.json" (Demo.calibrated [])
  = (Return false, Demo.calibrated []).
Proof. apply load_calibration_missing_file. reflexivity. Defined.

(** A tracker that has just seen a face, then a frame without one, then a
    frame whose face box lies outside the image. *)
Lemma process_frame_clears_reading_witness :
  let seen := snd (process_frame Demo.ext (Demo.looking (1 # 10) (1 # 10))
                     (Demo.started [])) in
  get_current_gaze (self seen) = Some (1 # 10, Some (1 # 10))%Q
  /\ (exists w',
        process_frame Demo.ext Demo.NoFace seen = (Return (None, None), w')
        /\ current_pitch (self w') = None
        /\ current_yaw (self w') = None
        /\ current_bbox (self w') = None
        /\ get_current_gaze (self w') = None)
  /\ (exists w',
        process_frame Demo.ext Demo.outside seen = (Return (None, None), w')
        /\ current_pitch (self w') = None
        /\ current_yaw (self w') = None
        /\ current_bbox (self w') = None
        /\ get_current_gaze (self w') = None).
Proof.
  intros seen. split; [reflexivity |]. split.
  - apply (proj2 (process_frame_clears_reading Demo.ext Demo.NoFace seen)).
    left. reflexivity.
  - apply (proj2 (process_frame_clears_reading Demo.ext Demo.outside seen)).
    right. exists [-300; 120; -60; 360]%Q, (9 # 10)%Q, [], (-300)%Z, 120%Z, (-60)%Z, 360%Z.
    split; [reflexivity |]. split; [reflexivity |]. left. cbn. lia.
Defined.

Lemma gaze_callback_reading_witness :
  (exists w',
     gaze_callback Demo.ext (Demo.started [Some (Demo.looking (1 # 10) (-1 # 20))])
     = (Return (Some (1 # 10, Some (-1 # 20))%Q), w'))
  /\ (exists w',
        gaze_callback Demo.ext (Demo.started [None; Some (Demo.looking 0 0)])
        = (Return None, w')).
Proof.
  split.
  - destruct (proj2 (proj2 (gaze_callback_reading Demo.ext
                       (Demo.started [Some (Demo.looking (1 # 10) (-1 # 20))])))
                (demo_started_wf _) demo_boxes_ok)
      as (reading & w' & Hrun & Hres).
    vm_compute in Hres. destruct Hres as (-> & _). exists w'. exact Hrun.
  - destruct (proj2 (proj2 (gaze_callback_reading Demo.ext
                       (Demo.started [None; Some (Demo.looking 0 0)])))
                (demo_started_wf _) demo_boxes_ok)
      as (reading & w' & Hrun & Hres).
    cbn in Hres. subst reading. exists w'. exact Hrun.
Defined.


(** Switching the filters of a filtering tracker off, and switching them on
    for a tracker that ran without: the next frame comes back as
    estimated. *)
Lemma first_filter_call_returns_input_witness :
  (exists w',
     disable_filter (Demo.filtered []) = (Return tt, w')
     /\ forall l,
          gaze_filter (self (Demo.filtered [])) = Some l
          \/ screen_filter (self (Demo.filtered [])) = Some l ->
          exists f,
            filter_objs w' !! l = Some f
            /\ forall x0 y0,
                 fst (GazeFilter.filter (blend Demo.ext) f x0 y0) = (x0, y0))
  /\ (exists w1 screen_point w2,
        enable_filter "smooth" (Demo.calibrated []) = (Return tt, w1)
        /\ process_frame Demo.ext (Demo.looking (1 # 10) (1 # 5)) w1
           = (Return (Some (1 # 10, 1 # 5)%Q, screen_point), w2)).
Proof.
  split.
  - apply (proj1 (proj2 (proj2 (first_filter_call_returns_input Demo.ext)))
             (Demo.filtered []) (demo_filtered_wf [])).
  - apply (proj2 (proj2 (proj2 (first_filter_call_returns_input Demo.ext)))
             (Demo.calibrated []) "smooth" GazeFilter.smooth
             (Demo.looking (1 # 10) (1 # 5)) (200, 120, 440, 360)%Z
             (demo_calibrated_wf [])); reflexivity.
Defined.

Lemma two_filters_in_fixed_order_witness :
  (exists g s w',
     enable_filter "balanced" (Demo.started []) = (Return tt, w')
     /\ gaze_filter (self w') = Some g
     /\ screen_filter (self w') = Some s
     /\ g <> s
     /\ filter_objs (Demo.started []) !! g = None
     /\ filter_objs (Demo.started []) !! s = None
     /\ filter_objs w' !! g = Some (GazeFilter.mk GazeFilter.balanced None)
     /\ filter_objs w' !! s = Some (GazeFilter.mk GazeFilter.balanced None)
     /\ filter_enabled (self w') = true)
  /\ (exists w',
        process_frame Demo.ext (Demo.looking (1 # 100) (1 # 50)) (Demo.filtered [])
        = (Return (Some (1 # 200, 1 # 100)%Q, Some (1160 # 1, 640 # 1)%Q), w')
        /\ filter_objs w'
           = <[2%positive := GazeFilter.mk GazeFilter.balanced (Some (1160 # 1, 640 # 1)%Q)]>
               (<[1%positive := GazeFilter.mk GazeFilter.balanced (Some (1 # 200, 1 # 100)%Q)]>
                  (filter_objs (Demo.filtered [])))
        /\ mapper_objs w' = mapper_objs (Demo.filtered [])).
Proof.
  split.
  - apply (proj1 (two_filters_in_fixed_order Demo.ext)
             "balanced" GazeFilter.balanced (Demo.started [])).
    reflexivity.
  - apply (proj2 (two_filters_in_fixed_order Demo.ext)
             (Demo.filtered []) (Demo.looking (1 # 100) (1 # 50))
             (200, 120, 440, 360)%Z 1%positive 2%positive
             (GazeFilter.mk GazeFilter.balanced (Some (0, 0)%Q))
             (GazeFilter.mk GazeFilter.balanced (Some (960, 540)%Q))
             1%positive Demo.steep
             (217600000000000000000 # 160000000000000000,
              118400000000000000000 # 160000000000000000)%Q);
      try reflexivity.
    lia.
Defined.

(** A user who holds still for 270 frames completes the nine targets; with
    100 frames the camera runs dry on the fourth target and the session
    fails. *)
Lemma run_calibration_outcome_witness :
  (exists w',
     run_calibration Demo.ext (Demo.started (Demo.steady 270)) = (Return true, w')
     /\ is_calibrated (self w') = true
     /\ exists l m,
          mapper (self w') = Some l
          /\ mapper_objs w' = <[l := m]> ∅)
  /\ (exists w',
        run_calibration Demo.ext (Demo.started (Demo.steady 100)) = (Return false, w')
        /\ mapper (self w') = None
        /\ is_calibrated (self w') = false
        /\ mapper_objs w' = ∅).
Proof.
  split.
  - destruct (proj2 (run_calibration_outcome Demo.ext (Demo.started (Demo.steady 270)))
                (demo_started_wf _) demo_boxes_ok)
      as (c & flag & c' & w1 & w' & _ & _ & Hrun & Hres); [cbn; lia | cbn; lia |].
    assert (Hflag : fst (run_calibration Demo.ext (Demo.started (Demo.steady 270)))
                    = Return true) by (vm_compute; reflexivity).
    rewrite Hrun in Hflag. injection Hflag as ->.
    destruct Hres as (Hcal & l & m & _ & Hmap & _ & Hobjs).
    exists w'. split; [exact Hrun |]. split; [exact Hcal |].
    exists l, m. split; [exact Hmap | exact Hobjs].
  - destruct (proj2 (run_calibration_outcome Demo.ext (Demo.started (Demo.steady 100)))
                (demo_started_wf _) demo_boxes_ok)
      as (c & flag & c' & w1 & w' & _ & _ & Hrun & Hres); [cbn; lia | cbn; lia |].
    assert (Hflag : fst (run_calibration Demo.ext (Demo.started (Demo.steady 100)))
                    = Return false) by (vm_compute; reflexivity).
    rewrite Hrun in Hflag. injection Hflag as ->.
    destruct Hres as (_ & _ & Hmap & Hcal & Hobjs).
    exists w'. split; [exact Hrun |]. auto.
Defined.

(** C1, which the code breaks: a calibrated tracker holds the fitted mapper
    object 1; the file at the path exists but lost its coefficient fields.
    [load_calibration] raises, and by then the tracker refers to the new,
    empty mapper object 2 instead, while [is_calibrated] still says
    [True]: the next frame cannot be mapped. *)
Theorem load_calibration_replaces_mapper_before_loading :
  let w := Demo.on_disk "calibration_onnx.json" Demo.truncated_doc (Demo.calibrated []) in
  let r := load_calibration "calibration_onnx.json" w in
  mapper (self w) = Some 1%positive
  /\ mapper_objs w !! 1%positive = Some Demo.steep
  /\ fst r = Raise MalformedCalibrationFile
  /\ mapper (self (snd r)) = Some 2%positive
  /\ mapper_objs (snd r) !! 2%positive = Some PolynomialMapper.new
  /\ mapper_objs (snd r) !! 1%positive = Some Demo.steep
  /\ is_calibrated (self (snd r)) = true
  /\ fst (process_frame Demo.ext (Demo.looking 0 0) (snd r)) = Raise InvalidState.
Proof. vm_compute. repeat split. Qed.


(** C2: a calibrated tracker with the filter off, a face in the frame,
    and a mapper whose prediction is NaN in x and 2000 in y.
    [process_frame] returns a screen point, and its x is NaN: [np.clip]
    brought y back to 1079 and let the NaN through, so the point is not
    within the screen bounds. *)
Lemma nan_screen_point_passes_the_clamp :
  process_frame_ieee Demo.ext
    (fun _ _ => (Num (1 # 10), Num 0)) Return
    (fun _ => Return (NaN, Num 2000)) Return
    (self (Demo.calibrated [])) (Demo.looking (1 # 10) 0)
  = Return (Some (Num (1 # 10), Num 0), Some (NaN, Num 1079))
  /\ is_calibrated (self (Demo.calibrated [])) = true
  /\ ~ on_screen (screen_width (self (Demo.calibrated []))) NaN.
Proof.
  split; [vm_compute; reflexivity | split; [reflexivity |]].
  intros (q & Hq & _). discriminate Hq.
Qed.

Lemma screen_point_within_bounds_unless_nan_witness :
  process_frame_ieee Demo.ext
    (fun _ _ => (Num (1 # 10), Num 0)) Return
    (fun _ => Return (PosInf, Num (-5))) Return
    (self (Demo.calibrated [])) (Demo.looking (1 # 10) 0)
  = Return (Some (Num (1 # 10), Num 0), Some (Num 1919, Num 0))
  /\ exists gaze raw,
       Some (Num (1 # 10), Num 0) = Some gaze
       /\ unclamped (fun _ => Return (PosInf, Num (-5))) Return
            (self (Demo.calibrated [])) gaze
          = Return raw
       /\ clamped_or_nan 1920 (fst raw) (Num 1919)
       /\ clamped_or_nan 1080 (snd raw) (Num 0).
Proof.
  split; [vm_compute; reflexivity |].
  apply (screen_point_within_bounds_unless_nan Demo.ext
           (fun _ _ => (Num (1 # 10), Num 0)) Return
           (fun _ => Return (PosInf, Num (-5))) Return
           (self (Demo.calibrated [])) (Demo.looking (1 # 10) 0)
           (Some (Num (1 # 10), Num 0)) (Num 1919, Num 0)).
  - cbn. lia.
  - cbn. lia.
  - vm_compute. reflexivity.
Defined.

(** * Further properties *)

(** ** What a frame changes, and what it reports *)

Section FrameExtras.
Context {Frame : Type}.
Variable ext : Externals Frame.

(** The settings together with the camera position. *)
Local Abbreviation fixed := (fun w : World Frame => (settings_of w, cap w)).

Lemma update_current_pitch_fixed v :
  keeps fixed (update_self (Frame := Frame) (set_current_pitch v)).
Proof. now intros w. Qed.

Lemma update_current_yaw_fixed v :
  keeps fixed (update_self (Frame := Frame) (set_current_yaw v)).
Proof. now intros w. Qed.

Lemma update_current_bbox_fixed v :
  keeps fixed (update_self (Frame := Frame) (set_current_bbox v)).
Proof. now intros w. Qed.

Lemma get_self_fixed : keeps fixed (get_self (Frame := Frame)).
Proof. now intros w. Qed.

Lemma call_filter_fixed l x y : keeps fixed (call_filter ext l x y).
Proof.
  intros w. unfold call_filter.
  destruct (filter_objs w !! l) as [f |] eqn:Hf; [| reflexivity].
  unfold settings_of. cbn. now rewrite (dom_insert_lookup_L _ l) by eauto.
Qed.

Lemma call_predict_fixed l gaze :
  keeps fixed (call_predict (Frame := Frame) l gaze).
Proof. intros w. unfold call_predict. now destruct (mapper_objs w !! l). Qed.

(** [process_frame] keeps the settings and the camera position. *)
Lemma process_frame_fixed frame : keeps fixed (process_frame ext frame).
Proof.
  unfold process_frame, track, smooth_gaze, map_to_screen.
  repeat (first
    [ apply keeps_bind; [| intros ?]
    | apply update_current_pitch_fixed
    | apply update_current_yaw_fixed
    | apply update_current_bbox_fixed
    | apply get_self_fixed
    | apply call_filter_fixed
    | apply call_predict_fixed
    | match goal with
      | |- keeps _ (match ?x with _ => _ end) => destruct x
      end
    | solve [auto with keeps] ]).
Qed.

(** X1: whatever the frame and the outcome, [process_frame] changes
    neither the screen size, the calibration, the filter settings, the
    set of filter objects, the mapper objects, the files nor the camera
    position: only the current reading and the filters' states. *)
Theorem process_frame_changes_reading_only frame (w : World Frame) :
  settings_of (snd (process_frame ext frame w)) = settings_of w
  /\ cap (snd (process_frame ext frame w)) = cap w.
Proof.
  pose proof (process_frame_fixed frame w) as H.
  cbv beta in H. now apply pair_equal_spec in H.
Qed.

(** A screen point takes a calibrated tracker. *)
Lemma screen_point_needs_calibration frame (w w' : World Frame) gaze point :
  process_frame ext frame w = (Return (gaze, Some point), w') ->
  is_calibrated (self w) = true.
Proof.
  rewrite process_frame_unfold.
  destruct (face_box ext frame) as [[bbox |] | e]; [| discriminate..].
  unfold track, smooth_gaze, map_to_screen, bind, update_self, get_self,
    call_filter, call_predict, ret.
  cbn. intros H.
  repeat (case_match; simplify_eq/=); congruence.
Qed.

(** The face box [face_box] hands on is not empty and lies in the frame. *)
Lemma face_box_inside frame x0 y0 x1 y1 :
  face_box ext frame = Return (Some (x0, y0, x1, y1)) ->
  (0 <= x0 < x1)%Z /\ (x1 <= snd (shape ext frame))%Z
  /\ (0 <= y0 < y1)%Z /\ (y1 <= fst (shape ext frame))%Z.
Proof.
  unfold face_box.
  destruct (detect_faces ext frame) as [| [box score] rest]; [discriminate |].
  destruct (map int_of (take 4 box)) as [| a [| b [| c [| d [| e l]]]]];
    try discriminate.
  destruct (_ || _) eqn:Hempty; [discriminate |].
  apply orb_false_elim in Hempty as [Hx Hy].
  apply Z.leb_gt in Hx, Hy.
  intros H. injection H as <- <- <- <-. lia.
Qed.

(** The face box is what [track] leaves in [current_bbox]. *)
Lemma track_bbox frame bbox (w w' : World Frame) result :
  track ext frame bbox w = (Return result, w') ->
  current_bbox (self w') = Some bbox.
Proof.
  unfold track, smooth_gaze, map_to_screen, bind, update_self, get_self,
    call_filter, call_predict, ret.
  cbn. intros H.
  repeat (case_match; simplify_eq/=); reflexivity.
Qed.

(** X2: when [process_frame] reports a gaze, the face box it leaves in
    [current_bbox] is not empty and lies inside the frame:
    [0 <= x_min < x_max <= width] and [0 <= y_min < y_max <= height]. *)
Theorem process_frame_bbox_inside_frame frame (w w' : World Frame) gaze screen_point :
  process_frame ext frame w = (Return (Some gaze, screen_point), w') ->
  exists x_min y_min x_max y_max,
    current_bbox (self w') = Some (x_min, y_min, x_max, y_max)
    /\ (0 <= x_min < x_max)%Z /\ (x_max <= snd (shape ext frame))%Z
    /\ (0 <= y_min < y_max)%Z /\ (y_max <= fst (shape ext frame))%Z.
Proof.
  rewrite process_frame_unfold.
  destruct (face_box ext frame) as [[[[[x0 y0] x1] y1] |] | e] eqn:Hbox;
    [| discriminate..].
  intros Htrack. exists x0, y0, x1, y1.
  split; [exact (track_bbox _ _ _ _ _ Htrack) |].
  exact (face_box_inside _ _ _ _ _ Hbox).
Qed.

(** X3: what [process_frame] returns is what [get_current_gaze] answers
    afterwards: the same pair after a frame with a gaze, [None] after a
    frame without one, and then there is no screen point and no face box
    either. *)
Theorem process_frame_result_is_current_gaze frame (w w' : World Frame) gaze screen_point :
  process_frame ext frame w = (Return (gaze, screen_point), w') ->
  match gaze with
  | Some (pitch, yaw) => get_current_gaze (self w') = Some (pitch, Some yaw)
  | None =>
      get_current_gaze (self w') = None
      /\ screen_point = None
      /\ current_bbox (self w') = None
  end.
Proof.
  rewrite process_frame_unfold.
  destruct (face_box ext frame) as [[bbox |] | e]; [| | discriminate].
  - intros Htrack.
    destruct (track_reports ext _ _ _ _ _ _ Htrack) as (a & -> & Hp & Hy).
    destruct a as [pitch yaw]. unfold get_current_gaze. now rewrite Hp, Hy.
  - intros H. injection H as <- <- <-. repeat split.
Qed.

(** X4: [process_frame] returns a screen point exactly when it found a
    gaze and the tracker is calibrated and holds a mapper. *)
Theorem screen_point_iff_calibrated frame (w w' : World Frame) gaze screen_point :
  process_frame ext frame w = (Return (gaze, screen_point), w') ->
  (is_Some screen_point
   <-> is_Some gaze /\ is_calibrated (self w) = true /\ is_Some (mapper (self w))).
Proof.
  rewrite process_frame_unfold.
  destruct (face_box ext frame) as [[bbox |] | e]; [| | discriminate].
  - unfold track, smooth_gaze, map_to_screen, bind, update_self, get_self,
      call_filter, call_predict, ret.
    cbn. intros H.
    repeat (case_match; simplify_eq/=);
      (split; [intros [? ?] | intros ([? ?] & ? & [? ?])]);
      simplify_eq; eauto; congruence.
  - intros H. injection H as <- <- <-.
    split; [intros [? ?] | intros ([? ?] & _)]; discriminate.
Qed.

End FrameExtras.

(** ** The two face detectors *)

Section DetectorExtras.
Context {Frame : Type}.
Variable ext : Externals Frame.

Lemma int_of_inject_Z (z : Z) : int_of (inject_Z z) = z.
Proof. unfold int_of. cbn. apply Z.quot_1_r. Qed.

(** X6: with the OpenCV cascade ([HAS_FACE_DETECTION] false) every box
    has its four coordinates, so unpacking never fails, and the face box
    is the first detection [(x, y, w, h)] as [x, y, x + w, y + h], clipped
    to the frame; there is none when nothing was detected or the clipped
    rectangle is empty. *)
Theorem cascade_face_box frame :
  HAS_FACE_DETECTION ext = false ->
  boxes_ok ext
  /\ face_box ext frame
     = match cascade ext frame with
       | [] => Return None
       | (x, y, w, h) :: _ =>
           let x_min := Z.max 0 x in
           let y_min := Z.max 0 y in
           let x_max := Z.min (snd (shape ext frame)) (x + w) in
           let y_max := Z.min (fst (shape ext frame)) (y + h) in
           if (x_max <=? x_min)%Z || (y_max <=? y_min)%Z then Return None
           else Return (Some (x_min, y_min, x_max, y_max))
       end.
Proof.
  intros Hcascade. split.
  - intros fr box score. unfold detect_faces. rewrite Hcascade.
    intros Hin. apply in_map_iff in Hin as ([[[x y] w] h] & Heq & _).
    injection Heq as <- _. cbn. lia.
  - unfold face_box, detect_faces. rewrite Hcascade.
    destruct (cascade ext frame) as [| [[[x y] w] h] rest]; [reflexivity |].
    cbn. now rewrite !int_of_inject_Z.
Qed.


End DetectorExtras.

(** ** Saving and loading *)

Section PersistenceExtras.
Context {Frame : Type}.

(** X8: [save_calibration] writes at most the one file: the tracker, the
    filter and mapper objects and the camera are as before, whatever the
    outcome, and so is every file at another path; without a mapper it
    does nothing at all. *)
Theorem save_calibration_touches_one_file filepath (w : World Frame) :
  self (snd (save_calibration filepath w)) = self w
  /\ filter_objs (snd (save_calibration filepath w)) = filter_objs w
  /\ mapper_objs (snd (save_calibration filepath w)) = mapper_objs w
  /\ cap (snd (save_calibration filepath w)) = cap w
  /\ (forall other, other <> filepath ->
        disk (snd (save_calibration filepath w)) !! other = disk w !! other)
  /\ (mapper (self w) = None -> save_calibration filepath w = (Return tt, w)).
Proof.
  unfold save_calibration, bind, get_self, call_save, ret.
  destruct (mapper (self w)) as [l |]; [| repeat split].
  destruct (mapper_objs w !! l) as [m |]; [| repeat split; discriminate].
  destruct (PolynomialMapper.save m) as [doc | e]; cbn;
    [| repeat split; discriminate].
  repeat split; try discriminate.
  intros other Hother. now rewrite lookup_insert_ne.
Qed.

(** X9: [load_calibration] returns [False] exactly when there is no file
    at the path, and [True] exactly when there is one and the mapper
    accepts it; on a file the mapper rejects it does not return. *)
Theorem load_calibration_result filepath (w : World Frame) :
  (fst (load_calibration filepath w) = Return false <-> disk w !! filepath = None)
  /\ (fst (load_calibration filepath w) = Return true
      <-> exists f m, disk w !! filepath = Some f
                      /\ PolynomialMapper.load f = Return m).
Proof.
  destruct (disk w !! filepath) as [f |] eqn:Hfile.
  - destruct (PolynomialMapper.load f) as [m | e] eqn:Hload.
    + rewrite (load_calibration_accepted filepath f m w Hfile Hload). cbn.
      split; split; try discriminate; eauto.
    + rewrite (load_calibration_rejected filepath f e w Hfile Hload). cbn.
      split; split; try discriminate.
      intros (f' & m & Hf' & Hm). congruence.
  - unfold load_calibration, bind.
    rewrite bool_decide_eq_false_2 by (rewrite Hfile; apply is_Some_None). cbn.
    split; split; try discriminate; auto.
    intros (f & m & Hf & _). discriminate.
Qed.

Lemma load_has_coeffs f m :
  PolynomialMapper.load f = Return m -> is_Some (PolynomialMapper.coeffs m).
Proof.
  unfold PolynomialMapper.load. intros H.
  repeat (case_match; simplify_eq/=). eauto.
Qed.

(** X10: when the mapper accepts the file, [load_calibration] returns
    [True] with the tracker calibrated on a new mapper object that holds
    what was loaded; the mapper objects that existed are unchanged, and so
    are the filters, the files, the camera and the current reading; a
    well-formed world stays well-formed. *)
Theorem load_calibration_success filepath f m (w : World Frame) :
  disk w !! filepath = Some f ->
  PolynomialMapper.load f = Return m ->
  exists l w',
    load_calibration filepath w = (Return true, w')
    /\ is_calibrated (self w') = true
    /\ mapper (self w') = Some l
    /\ mapper_objs w !! l = None
    /\ mapper_objs w' !! l = Some m
    /\ (forall other, other <> l -> mapper_objs w' !! other = mapper_objs w !! other)
    /\ filter_objs w' = filter_objs w
    /\ disk w' = disk w
    /\ cap w' = cap w
    /\ get_current_gaze (self w') = get_current_gaze (self w)
    /\ (wf_world w -> wf_world w').
Proof.
  intros Hfile Hload.
  pose proof (load_calibration_accepted filepath f m w Hfile Hload) as Hrun.
  cbn zeta in Hrun.
  set (l := fresh (dom (mapper_objs w))) in *.
  assert (Hfresh : mapper_objs w !! l = None)
    by (apply not_elem_of_dom, is_fresh).
  eexists l, _. split; [exact Hrun |]. cbn.
  do 3 (split; [reflexivity || exact Hfresh |]).
  split; [apply lookup_insert_eq |].
  split; [intros other Hother; now rewrite lookup_insert_ne |].
  do 4 (split; [reflexivity |]).
  intros Hwf. constructor; cbn.
  - apply (wf_gaze_filter w Hwf).
  - apply (wf_screen_filter w Hwf).
  - intros l' E. injection E as <-. rewrite lookup_insert_eq. eauto.
  - intros l' m' _ E. injection E as <-. rewrite lookup_insert_eq.
    intros E. injection E as <-. exact (load_has_coeffs f m Hload).
Qed.
End PersistenceExtras.


(** ** The main loop *)

Section MainExtras.
Context {Frame : Type}.
Variable ext : Externals Frame.
Variable show : Frame -> Tracker -> option (Q * Q) -> Outcome unit.


Lemma process_frame_settings frame :
  keeps settings_of (process_frame ext frame).
Proof.
  intros w. pose proof (process_frame_fixed ext frame w) as H.
  cbv beta in H. now apply pair_equal_spec in H.
Qed.

Lemma gaze_callback_settings : keeps settings_of (gaze_callback ext).
Proof.
  unfold gaze_callback.
  apply keeps_bind; [intros w; unfold cap_read; now destruct (cap w) |].
  intros [frame |]; [| auto with keeps].
  apply keeps_bind; [apply process_frame_settings |].
  intros _. apply keeps_bind; [now intros w | auto with keeps].
Qed.








(** A key handler that goes on with the loop never breaks it. *)
Lemma then_continue_never_breaks {A} (m : M (World Frame) A) (w : World Frame) :
  fst (bind m (fun _ => ret Continue) w) <> Return Break.
Proof. unfold bind, ret. destruct (m w) as [[a | e] w1]; discriminate. Qed.



(** X12: the key [r] leaves the tracker uncalibrated and without a
    mapper, and touches nothing else; from then on [process_frame] returns
    no screen point, whatever the frame. *)
Theorem reset_key_uncalibrates calib_path (w : World Frame) :
  exists w',
    handle_key ext calib_path (ord "r") w = (Return Continue, w')
    /\ mapper (self w') = None
    /\ is_calibrated (self w') = false
    /\ self w' = set_is_calibrated false (set_mapper None (self w))
    /\ filter_objs w' = filter_objs w
    /\ mapper_objs w' = mapper_objs w
    /\ disk w' = disk w
    /\ cap w' = cap w
    /\ forall frame gaze screen_point w'',
         process_frame ext frame w' = (Return (gaze, screen_point), w'') ->
         screen_point = None.
Proof.
  exists (set_self (set_is_calibrated false (set_mapper None (self w))) w).
  do 8 (split; [reflexivity |]).
  intros frame gaze [point |] w'' Hframe; [| reflexivity].
  apply screen_point_needs_calibration in Hframe. discriminate.
Qed.

(** X13: the key [f] switches filtering off when it is on; when it is
    off, it switches it on with two new filters of the profile
    "balanced", whatever the profile was before.  So pressing [f] twice
    on a filtering tracker ends with balanced filters that have seen no
    sample. *)
Theorem toggle_key_forgets_profile calib_path (w : World Frame) :
  wf_world w ->
  filter_enabled (self w) = true ->
  exists w1 w2 g s,
    handle_key ext calib_path (ord "f") w = (Return Continue, w1)
    /\ filter_enabled (self w1) = false
    /\ handle_key ext calib_path (ord "f") w1 = (Return Continue, w2)
    /\ filter_enabled (self w2) = true
    /\ gaze_filter (self w2) = Some g
    /\ screen_filter (self w2) = Some s
    /\ g <> s
    /\ filter_objs w2 !! g = Some (GazeFilter.mk GazeFilter.balanced None)
    /\ filter_objs w2 !! s = Some (GazeFilter.mk GazeFilter.balanced None).
Proof.
  intros Hwf Hon.
  destruct (disable_filter_resets w Hwf) as (w1 & Hoff & Hflag & _).
  assert (Hfirst : handle_key ext calib_path (ord "f") w = (Return Continue, w1)).
  { change (handle_key ext calib_path (ord "f") w)
      with (bind get_self (fun t : Tracker =>
              bind (if filter_enabled t then disable_filter
                    else enable_filter "balanced")
                   (fun _ => ret Continue)) w).
    unfold bind at 1. unfold get_self. rewrite Hon.
    erewrite bind_Return by exact Hoff. reflexivity. }
  destruct (enable_filter_spec "balanced" GazeFilter.balanced w1 eq_refl)
    as (Hon2 & Hne & _ & _).
  eexists w1, _, _, _. split; [exact Hfirst |]. split; [exact Hflag |].
  split.
  { change (handle_key ext calib_path (ord "f") w1)
      with (bind get_self (fun t : Tracker =>
              bind (if filter_enabled t then disable_filter
                    else enable_filter "balanced")
                   (fun _ => ret Continue)) w1).
    unfold bind at 1. unfold get_self. rewrite Hflag.
    erewrite bind_Return by exact Hon2. reflexivity. }
  cbn. do 3 (split; [reflexivity |]). split; [exact Hne |].
  split; [| apply lookup_insert_eq].
  rewrite lookup_insert_ne by (intros E; exact (Hne (eq_sym E))).
  apply lookup_insert_eq.
Qed.

(** A key code without a binding changes nothing. *)
Lemma handle_key_unbound calib_path key (w : World Frame) :
  ~ In key [ord "q"; ord "c"; ord "s"; ord "l"; ord "r"; ord "f";
            ord "1"; ord "2"; ord "3"; ord "4"] ->
  handle_key ext calib_path key w = (Return Continue, w).
Proof.
  intros Hnot. unfold handle_key.
  repeat (case_match;
          [ exfalso; apply Hnot;
            match goal with E : (_ =? _)%Z = true |- _ =>
              apply Z.eqb_eq in E; rewrite E end;
            cbn; tauto
          | ]).
  reflexivity.
Qed.

(** X14: only the key [q] breaks the loop, and it changes nothing; a key
    code that is none of [q c s l r f 1 2 3 4] (such as 255, which is
    what no key at all is read as) changes nothing and goes on. *)
Theorem only_q_breaks calib_path key (w : World Frame) :
  (fst (handle_key ext calib_path key w) = Return Break <-> key = ord "q")
  /\ handle_key ext calib_path (ord "q") w = (Return Break, w)
  /\ (~ In key [ord "q"; ord "c"; ord "s"; ord "l"; ord "r"; ord "f";
                ord "1"; ord "2"; ord "3"; ord "4"] ->
      handle_key ext calib_path key w = (Return Continue, w))
  /\ handle_key ext calib_path (Z.land (-1) 255) w = (Return Continue, w).
Proof.
  split; [| split; [reflexivity | split; [apply handle_key_unbound |]]].
  - split.
    + unfold handle_key.
      destruct (Z.eqb_spec key (ord "q")) as [-> | Hq]; [reflexivity |].
      repeat case_match; intros Hbreak; try discriminate;
        exfalso; revert Hbreak; apply then_continue_never_breaks.
    + intros ->. reflexivity.
  - reflexivity.
Qed.

(** X15: when the camera hands over no frame, the iteration does nothing
    but use up the read: the key is not looked at, not even [q], and the
    loop goes on. *)
Theorem failed_read_skips_the_key calib_path waited (w : World Frame) :
  (forall frame, head (cap w) <> Some (Some frame)) ->
  main_iteration ext show calib_path waited w
  = (Return Continue, set_cap (tail (cap w)) w).
Proof.
  intros Hfailed. unfold main_iteration, bind, cap_read, ret.
  destruct w as [t fs ms files frames]. cbn in *.
  destruct frames as [| [frame |] rest]; cbn; [reflexivity | | reflexivity].
  exfalso. now apply (Hfailed frame).
Qed.

(** X16: only the low eight bits of what [cv2.waitKey] returns count:
    two values that differ by a multiple of 256 are the same key. *)
Theorem key_code_is_masked calib_path waited k (w : World Frame) :
  main_iteration ext show calib_path (waited + 256 * k) w
  = main_iteration ext show calib_path waited w.
Proof.
  unfold main_iteration.
  assert (Hmask : Z.land (waited + 256 * k) 255 = Z.land waited 255).
  { change 255%Z with (Z.ones 8). rewrite !Z.land_ones by lia.
    change (2 ^ 8)%Z with 256%Z.
    rewrite (Z.mul_comm 256 k). apply Z_mod_plus_full. }
  now rewrite Hmask.
Qed.
End MainExtras.

(** ** The frame-rate window and the drawing *)

Section DrawingExtras.

Lemma push_fps_length fps fps_list :
  (length fps_list <= 30)%nat -> (length (push_fps fps fps_list) <= 30)%nat.
Proof.
  intros H. unfold push_fps.
  destruct (Nat.ltb_spec 30 (length (fps_list ++ [fps]))) as [Hlt | Hle];
    [| exact Hle].
  rewrite length_app in Hlt. cbn in Hlt.
  destruct fps_list as [| a l]; cbn in *; [lia |].
  rewrite length_app. cbn. lia.
Qed.

Lemma fps_window_from (samples fps_list : list Q) :
  (length fps_list <= 30)%nat ->
  fold_left (fun l fps => push_fps fps l) samples fps_list
  = drop (length (fps_list ++ samples) - 30) (fps_list ++ samples).
Proof.
  revert fps_list. induction samples as [| x xs IH]; intros l Hl.
  - cbn. rewrite app_nil_r.
    replace (length l - 30)%nat with 0%nat by lia. reflexivity.
  - cbn [fold_left]. rewrite IH by now apply push_fps_length.
    unfold push_fps.
    destruct (Nat.ltb_spec 30 (length (l ++ [x]))) as [Hlt | Hle].
    + rewrite length_app in Hlt.
      destruct l as [| a l]; cbn [length] in *; [lia |].
      cbn [app tail]. rewrite <- app_assoc. cbn [app length].
      assert (Hlen : (30 <= length (l ++ x :: xs))%nat)
        by (rewrite length_app; cbn [length]; lia).
      replace (S (length (l ++ x :: xs)) - 30)%nat
        with (S (length (l ++ x :: xs) - 30)) by lia.
      reflexivity.
    + now rewrite <- app_assoc.
Qed.

(** X17: the frame-rate list always holds the last 30 rates pushed, at
    most 30 of them, and at least one once a rate has been pushed: the
    average over it never divides by zero. *)
Theorem fps_window_holds_last_30 (samples : list Q) :
  let fps_list := fold_left (fun l fps => push_fps fps l) samples [] in
  fps_list = drop (length samples - 30) samples
  /\ (length fps_list <= 30)%nat
  /\ (samples <> [] -> fps_list <> []).
Proof.
  cbn zeta. rewrite (fps_window_from samples []) by (cbn; lia). cbn [app].
  split; [reflexivity |]. split.
  - rewrite length_drop. lia.
  - intros Hne Hnil. apply (f_equal length) in Hnil.
    rewrite length_drop in Hnil. cbn in Hnil.
    destruct samples; [congruence | cbn in Hnil; lia].
Qed.

(** [int] of a number between two integers lies between them. *)
Lemma int_of_between (a b : Z) (q : Q) :
  (inject_Z a <= q)%Q -> (q <= inject_Z b)%Q -> (a <= int_of q <= b)%Z.
Proof.
  destruct q as [n d]. unfold Qle, int_of. cbn. intros Ha Hb. split.
  - rewrite <- (Z.quot_mul a (Z.pos d)) by lia.
    apply Z.quot_le_mono; lia.
  - rewrite <- (Z.quot_mul b (Z.pos d)) by lia.
    apply Z.quot_le_mono; lia.
Qed.

Lemma fraction_of_extent (x : Q) (extent : Z) :
  (1 <= extent)%Z -> (0 <= x)%Q -> (x <= inject_Z (extent - 1))%Q ->
  (0 <= x / inject_Z extent)%Q /\ (x / inject_Z extent <= 1)%Q.
Proof.
  intros Hext Hlo Hhi.
  assert (Hpos : (0 < inject_Z extent)%Q)
    by (change 0%Q with (inject_Z 0); rewrite <- Zlt_Qlt; lia).
  assert (Hle : (inject_Z (extent - 1) <= inject_Z extent)%Q)
    by (rewrite <- Zle_Qle; lia).
  split.
  - apply Qle_shift_div_l; [exact Hpos |]. lra.
  - apply Qle_shift_div_r; [exact Hpos |]. lra.
Qed.

(** X18: for a screen point inside the screen, as [process_frame] returns
    them, on a screen of positive size, the gaze dot of the minimap is
    drawn inside the minimap's rectangle, borders included. *)
Theorem gaze_dot_inside_minimap (t : Tracker) (w : Z) (x y : Q) :
  (1 <= screen_width t)%Z -> (1 <= screen_height t)%Z ->
  (0 <= x)%Q -> (x <= inject_Z (screen_width t - 1))%Q ->
  (0 <= y)%Q -> (y <= inject_Z (screen_height t - 1))%Q ->
  exists dot_x dot_y,
    gaze_dot t w (x, y) = Some (dot_x, dot_y)
    /\ (map_x w <= dot_x <= map_x w + map_w)%Z
    /\ (map_y <= dot_y <= map_y + map_h)%Z.
Proof.
  intros HW HH Hx0 Hx1 Hy0 Hy1. unfold gaze_dot.
  assert (EW : (screen_width t =? 0)%Z = false) by (apply Z.eqb_neq; lia).
  assert (EH : (screen_height t =? 0)%Z = false) by (apply Z.eqb_neq; lia).
  rewrite EW, EH. cbn [orb fst snd].
  destruct (fraction_of_extent x _ HW Hx0 Hx1) as [Hfx0 Hfx1].
  destruct (fraction_of_extent y _ HH Hy0 Hy1) as [Hfy0 Hfy1].
  eexists _, _. split; [reflexivity |]. split.
  - apply int_of_between.
    + change (inject_Z map_w) with 200%Q. lra.
    + rewrite inject_Z_plus. change (inject_Z map_w) with 200%Q. lra.
  - apply int_of_between.
    + change (inject_Z map_h) with 120%Q. change (inject_Z map_y) with 10%Q. lra.
    + rewrite inject_Z_plus.
      change (inject_Z map_h) with 120%Q. change (inject_Z map_y) with 10%Q. lra.
Qed.

End DrawingExtras.

Section ArrowExtras.
Context {Frame : Type}.
Variable ext : Externals Frame.

(** X19: after a frame that gave a gaze, the foot of the gaze arrow, the
    centre of the face box, is a pixel of the face box and of the frame. *)
Theorem arrow_foot_inside_frame frame (w w' : World Frame) gaze screen_point :
  process_frame ext frame w = (Return (Some gaze, screen_point), w') ->
  exists x_min y_min x_max y_max,
    current_bbox (self w') = Some (x_min, y_min, x_max, y_max)
    /\ let '(cx, cy) := arrow_foot (x_min, y_min, x_max, y_max) in
       (x_min <= cx < x_max)%Z /\ (y_min <= cy < y_max)%Z
       /\ (0 <= cx < snd (shape ext frame))%Z
       /\ (0 <= cy < fst (shape ext frame))%Z.
Proof.
  rewrite process_frame_unfold.
  destruct (face_box ext frame) as [[[[[x0 y0] x1] y1] |] | e] eqn:Hbox;
    [| discriminate..].
  intros Htrack. exists x0, y0, x1, y1.
  split; [exact (track_bbox ext _ _ _ _ _ Htrack) |].
  pose proof (face_box_inside ext _ _ _ _ _ Hbox) as (Hx & Hx' & Hy & Hy').
  cbn.
  assert (x0 <= (x0 + x1) / 2 < x1)%Z
    by (split; [apply Z.div_le_lower_bound | apply Z.div_lt_upper_bound]; lia).
  assert (y0 <= (y0 + y1) / 2 < y1)%Z
    by (split; [apply Z.div_le_lower_bound | apply Z.div_lt_upper_bound]; lia).
  lia.
Qed.
End ArrowExtras.

(** ** The export script *)

Section ConvertExtras.

Lemma substring_all (s : string) : String.substring 0 (String.length s) s = s.
Proof. induction s as [| c s IH]; cbn; [reflexivity | now rewrite IH]. Qed.

(** The prefix goes, once. *)
Lemma strip_module_prefixed (rest : string) :
  Convert.strip_module (String.append "module." rest) = rest.
Proof.
  unfold Convert.strip_module.
  assert (Hprefix : String.prefix "module." (String.append "module." rest) = true)
    by (destruct rest; reflexivity).
  rewrite Hprefix.
  change (String.substring 0 (String.length rest - 0) rest = rest).
  rewrite Nat.sub_0_r. apply substring_all.
Qed.

Lemma remap_snoc {Tensor} (state_dict : list (string * Tensor)) key value :
  Convert.remap (state_dict ++ [(key, value)])
  = <[Convert.strip_module key := value]> (Convert.remap state_dict).
Proof. unfold Convert.remap. now rewrite fold_left_app. Qed.

(** X20: after the renaming loop of [convert_to_onnx], the tensor found
    under a name is the one of the last item of the checkpoint whose key,
    with a leading "module." taken off, is that name; a name no key turns
    into is absent.  So of two keys that turn into the same name, as
    "module.w" and "w" do, the earlier one is lost. *)
Theorem remap_keeps_last_item {Tensor} (state_dict : list (string * Tensor)) name :
  Convert.remap state_dict !! name
  = snd <$> last (filter (fun item => Convert.strip_module (fst item) = name)
                         state_dict).
Proof.
  induction state_dict as [| [key value] items IH] using rev_ind;
    [reflexivity |].
  rewrite remap_snoc, filter_app.
  destruct (decide (Convert.strip_module key = name)) as [<- | Hne].
  - rewrite lookup_insert_eq.
    rewrite (filter_cons_True _ (key, value)) by reflexivity.
    cbn. now rewrite last_snoc.
  - rewrite lookup_insert_ne by exact Hne.
    rewrite (filter_cons_False _ (key, value)) by exact Hne.
    cbn. now rewrite app_nil_r.
Qed.

(** X21: for a checkpoint saved from a wrapped model, where every key
    carries "module." and no key comes twice, every tensor is found under
    its key without the prefix. *)
Theorem remap_unwraps_module_keys {Tensor} (state_dict : list (string * Tensor)) :
  NoDup (map fst state_dict) ->
  (forall item, In item state_dict -> exists rest, fst item = String.append "module." rest) ->
  forall rest value,
    In (String.append "module." rest, value) state_dict ->
    Convert.remap state_dict !! rest = Some value.
Proof.
  induction state_dict as [| [key v0] items IH] using rev_ind;
    intros Hnodup Hwrapped rest value Hin; [destruct Hin |].
  rewrite remap_snoc.
  rewrite map_app in Hnodup. cbn in Hnodup.
  apply NoDup_app in Hnodup as (Hitems & Hfresh & _).
  apply in_app_or in Hin as [Hin | [Hin | []]].
  - destruct (Hwrapped (key, v0)) as [rest' Hkey];
      [apply in_or_app; right; now left |].
    cbn in Hkey. subst key. rewrite strip_module_prefixed.
    assert (Hne : rest' <> rest).
    { intros ->. apply (Hfresh (String.append "module." rest)).
      - apply list_elem_of_In, in_map_iff. now exists (String.append "module." rest, value).
      - apply list_elem_of_In. now left. }
    rewrite lookup_insert_ne by exact Hne.
    apply IH; [exact Hitems | | exact Hin].
    intros item Hitem. apply Hwrapped, in_or_app. now left.
  - injection Hin as -> ->. rewrite strip_module_prefixed.
    apply lookup_insert_eq.
Qed.

Variable expansion : Convert.Block -> Z.

Lemma chained_app block channels blocks more :
  Convert.chained expansion block channels (blocks ++ more)
  <-> Convert.chained expansion block channels blocks
      /\ Convert.chained expansion block
           (Convert.out_channels expansion block channels blocks) more.
Proof.
  revert channels. induction blocks as [| b blocks IH]; intros channels; cbn.
  - tauto.
  - unfold Convert.out_channels in *. cbn. rewrite IH. tauto.
Qed.

Lemma same_blocks_chained block planes (l : list nat) :
  let out := (planes * expansion block)%Z in
  Convert.chained expansion block out
    (map (fun _ => Convert.mkBlockArgs out planes 1 None) l)
  /\ Convert.out_channels expansion block out
       (map (fun _ => Convert.mkBlockArgs out planes 1 None) l) = out.
Proof.
  cbn zeta. induction l as [| i l [IH1 IH2]]; cbn; [split; reflexivity |].
  unfold Convert.out_channels in *. cbn. auto.
Qed.

(** The blocks of a layer fit together, and put out what
    [self.inplanes] is left at. *)
Lemma make_layer_chained inplanes block planes blocks stride :
  let layer := Convert._make_layer expansion inplanes block planes blocks stride in
  Convert.chained expansion block inplanes (fst layer)
  /\ Convert.out_channels expansion block inplanes (fst layer)
     = (planes * expansion block)%Z.
Proof.
  cbn zeta. unfold Convert._make_layer. cbn [fst snd].
  destruct (same_blocks_chained block planes (seq 1 (blocks - 1))) as [Hrest Hout].
  cbn zeta in Hrest, Hout. split.
  - cbn. split; [reflexivity |]. split; [| exact Hrest].
    destruct (Z.eqb_spec stride 1) as [-> | Hs];
      destruct (Z.eqb_spec inplanes (planes * expansion block)) as [-> | Hi];
      cbn; auto.
  - unfold Convert.out_channels in *. cbn. exact Hout.
Qed.

Lemma make_layer_length inplanes block planes blocks stride :
  length (fst (Convert._make_layer expansion inplanes block planes blocks stride))
  = Nat.max 1 blocks.
Proof. cbn. rewrite length_map, length_seq. lia. Qed.

(** X22: the blocks [_make_layer] builds fit together: the first takes
    [inplanes] channels, every later one the channels the one before puts
    out; a block without [downsample] keeps the shape of its input, a
    [downsample] maps the block's input to its output; only the first
    block can have one or a stride; the layer puts out
    [planes * expansion] channels, which is what [self.inplanes] is left
    at; and there are [blocks] of them, but never fewer than one. *)
Theorem make_layer_fits inplanes block planes blocks stride :
  let layer := Convert._make_layer expansion inplanes block planes blocks stride in
  Convert.chained expansion block inplanes (fst layer)
  /\ Convert.out_channels expansion block inplanes (fst layer) = snd layer
  /\ snd layer = (planes * expansion block)%Z
  /\ length (fst layer) = Nat.max 1 blocks
  /\ Forall (fun b => Convert.b_downsample b = None /\ Convert.b_stride b = 1%Z)
            (tail (fst layer)).
Proof.
  cbn zeta.
  destruct (make_layer_chained inplanes block planes blocks stride) as [Hfit Hout].
  cbn zeta in Hfit, Hout.
  split; [exact Hfit |]. split; [exact Hout |]. split; [reflexivity |].
  split; [apply make_layer_length |].
  unfold Convert._make_layer. cbn [fst tail].
  apply Forall_forall. intros b Hb.
  apply list_elem_of_In, in_map_iff in Hb as (i & <- & _). cbn. auto.
Qed.

(** X23: whatever the name, [getArch] picks a block and four layer sizes
    ("ResNet50" when the name is not one of the five), so that building
    the network never runs out of layer sizes; the four layers have as
    many blocks as the sizes say; from the 64 channels of the stem on all
    blocks fit together; and the two heads take the [512 * expansion]
    channels the last block puts out. *)
Theorem every_architecture_fits (arch : string) :
  let '(block, sizes) := Convert.getArch arch in
  exists layers,
    Convert.L2CS expansion block sizes = Some (layers, (512 * expansion block)%Z)
    /\ map (length (A := Convert.BlockArgs)) layers = sizes
    /\ Convert.chained expansion block 64 (concat layers)
    /\ Convert.out_channels expansion block 64 (concat layers)
       = (512 * expansion block)%Z.
Proof.
  assert (Hbuild : forall block l0 l1 l2 l3,
    (1 <= l0)%nat -> (1 <= l1)%nat -> (1 <= l2)%nat -> (1 <= l3)%nat ->
    exists layers,
      Convert.L2CS expansion block [l0; l1; l2; l3]
      = Some (layers, (512 * expansion block)%Z)
      /\ map (length (A := Convert.BlockArgs)) layers = [l0; l1; l2; l3]
      /\ Convert.chained expansion block 64 (concat layers)
      /\ Convert.out_channels expansion block 64 (concat layers)
         = (512 * expansion block)%Z).
  { intros block l0 l1 l2 l3 H0 H1 H2 H3.
    pose proof (make_layer_chained 64 block 64 l0 1) as (C1 & O1).
    pose proof (make_layer_chained (64 * expansion block) block 128 l1 2)
      as (C2 & O2).
    pose proof (make_layer_chained (128 * expansion block) block 256 l2 2)
      as (C3 & O3).
    pose proof (make_layer_chained (256 * expansion block) block 512 l3 2)
      as (C4 & O4).
    pose proof (make_layer_length 64 block 64 l0 1) as L1.
    pose proof (make_layer_length (64 * expansion block) block 128 l1 2) as L2.
    pose proof (make_layer_length (128 * expansion block) block 256 l2 2) as L3.
    pose proof (make_layer_length (256 * expansion block) block 512 l3 2) as L4.
    cbn zeta in *.
    exists [fst (Convert._make_layer expansion 64 block 64 l0 1);
            fst (Convert._make_layer expansion (64 * expansion block) block 128 l1 2);
            fst (Convert._make_layer expansion (128 * expansion block) block 256 l2 2);
            fst (Convert._make_layer expansion (256 * expansion block) block 512 l3 2)].
    split; [reflexivity |]. split.
    - cbn [map]. rewrite L1, L2, L3, L4. repeat f_equal; lia.
    - cbn [concat]. rewrite app_nil_r.
      rewrite !chained_app.
      unfold Convert.out_channels in *. rewrite !fold_left_app.
      rewrite O1, O2, O3, O4. auto. }
  unfold Convert.getArch.
  repeat case_match; simplify_eq; apply Hbuild; lia.
Qed.
End ConvertExtras.

(** ** Calibration and the loop *)

Section CalibrationExtras.
Context {Frame : Type}.
Variable ext : Externals Frame.
Variable show : Frame -> Tracker -> option (Q * Q) -> Outcome unit.

(** X24: whatever its outcome, [run_calibration] changes neither the
    screen size, the filter settings, the set of filter objects nor the
    files, and every mapper object that existed is still there,
    unchanged. *)
Theorem run_calibration_touches_calibration_only (w : World Frame) :
  let w' := snd (run_calibration ext w) in
  screen_width (self w') = screen_width (self w)
  /\ screen_height (self w') = screen_height (self w)
  /\ gaze_filter (self w') = gaze_filter (self w)
  /\ screen_filter (self w') = screen_filter (self w)
  /\ filter_enabled (self w') = filter_enabled (self w)
  /\ dom (filter_objs w') = dom (filter_objs w)
  /\ disk w' = disk w
  /\ forall l m, mapper_objs w !! l = Some m -> mapper_objs w' !! l = Some m.
Proof.
  cbn zeta. unfold run_calibration, bind, get_self, lift.
  destruct (GazeCalibrator.new _ _ _ _ _ _) as [c | e]; [| cbn; tauto].
  pose proof (session_keeps settings_of (gaze_callback ext)
                (aggregate ext) (poll_ceiling ext)
                (gaze_callback_settings ext) c w) as Hkeep.
  destruct (GazeCalibrator.run_calibration _ _ _ c w) as [[[ok c'] | e] w1];
    cbn in Hkeep; unfold settings_of in Hkeep;
    injection Hkeep as Hsw Hsh Hmap Hcal Hgf Hsf Hfe Hdom Hobjs Hdisk;
    [| cbn; rewrite Hobjs; tauto].
  destruct ok; [| cbn; rewrite Hobjs; tauto].
  destruct (GazeCalibrator.create_mapper _ _ _ _) as [m | e];
    [| cbn; rewrite Hobjs; tauto].
  cbn. do 7 (split; [assumption |]).
  intros l m' Hl. rewrite <- Hobjs in Hl.
  rewrite lookup_insert_ne; [exact Hl |].
  intros <-.
  assert (Hnone : mapper_objs w1 !! fresh (dom (mapper_objs w1)) = None)
    by (apply not_elem_of_dom, is_fresh).
  congruence.
Qed.

(** X25: calibration sees what tracking sees: with no bound key down, an
    iteration of the main loop leaves the world exactly as a poll of
    [gaze_callback] does, whether they return or raise.  The iteration
    raises whenever the poll does, and when it returns it goes on with
    the loop; it may raise where the poll returns, in the drawing. *)
Theorem loop_iteration_is_a_poll calib_path waited (w : World Frame) :
  ~ In (Z.land waited 255)
       [ord "q"; ord "c"; ord "s"; ord "l"; ord "r"; ord "f";
        ord "1"; ord "2"; ord "3"; ord "4"] ->
  snd (main_iteration ext show calib_path waited w) = snd (gaze_callback ext w)
  /\ (forall e, fst (gaze_callback ext w) = Raise e ->
        fst (main_iteration ext show calib_path waited w) = Raise e)
  /\ (forall control,
        fst (main_iteration ext show calib_path waited w) = Return control ->
        control = Continue
        /\ exists reading, fst (gaze_callback ext w) = Return reading).
Proof.
  intros Hkey.
  unfold gaze_callback, main_iteration, bind, cap_read, get_self, lift, ret.
  destruct (cap w) as [| [frame |] rest].
  - split; [reflexivity | split; [discriminate |]].
    intros control [= <-]. eauto.
  - destruct (process_frame ext (flip ext frame) (set_cap rest w))
      as [[result | e] w1].
    + destruct (show (flip ext frame) (self w1) (snd result)) as [[] | e].
      * rewrite (handle_key_unbound ext calib_path _ w1 Hkey).
        split; [reflexivity | split; [discriminate |]].
        intros control [= <-]. eauto.
      * split; [reflexivity | split; discriminate].
    + split; [reflexivity | split; [| discriminate]].
      now intros e' [= <-].
  - split; [reflexivity | split; [discriminate |]].
    intros control [= <-]. eauto.
Qed.
End CalibrationExtras.

(** * Further concrete runs *)

Lemma process_frame_bbox_inside_frame_witness :
  exists w',
    process_frame Demo.ext (Demo.looking (1 # 10) (1 # 10)) (Demo.started [])
    = (Return (Some (1 # 10, 1 # 10)%Q, None), w')
    /\ exists x_min y_min x_max y_max,
         current_bbox (self w') = Some (x_min, y_min, x_max, y_max)
         /\ (0 <= x_min < x_max)%Z /\ (x_max <= 640)%Z
         /\ (0 <= y_min < y_max)%Z /\ (y_max <= 480)%Z.
Proof.
  eexists. split; [vm_compute; reflexivity |].
  eapply (process_frame_bbox_inside_frame Demo.ext
            (Demo.looking (1 # 10) (1 # 10)) (Demo.started [])).
  vm_compute. reflexivity.
Defined.

Lemma process_frame_result_is_current_gaze_witness :
  exists w',
    process_frame Demo.ext (Demo.looking (1 # 10) (1 # 10)) (Demo.started [])
    = (Return (Some (1 # 10, 1 # 10)%Q, None), w')
    /\ get_current_gaze (self w') = Some (1 # 10, Some (1 # 10))%Q.
Proof.
  eexists. split; [vm_compute; reflexivity |].
  eapply (process_frame_result_is_current_gaze Demo.ext
            (Demo.looking (1 # 10) (1 # 10)) (Demo.started [])
            _ (Some (1 # 10, 1 # 10)%Q)).
  vm_compute. reflexivity.
Defined.

Lemma screen_point_iff_calibrated_witness :
  exists gaze screen_point w',
    process_frame Demo.ext (Demo.looking (1 # 10) (1 # 10)) (Demo.calibrated [])
    = (Return (gaze, screen_point), w')
    /\ (is_Some screen_point
        <-> is_Some gaze
            /\ is_calibrated (self (Demo.calibrated [])) = true
            /\ is_Some (mapper (self (Demo.calibrated [])))).
Proof.
  eexists _, _, _. split; [vm_compute; reflexivity |].
  eapply (screen_point_iff_calibrated Demo.ext
            (Demo.looking (1 # 10) (1 # 10)) (Demo.calibrated [])).
  vm_compute. reflexivity.
Defined.


Lemma cascade_face_box_witness :
  boxes_ok Examples.webcam
  /\ face_box Examples.webcam (Demo.looking 0 0)
     = Return (Some (200, 120, 440, 360)%Z)
  /\ face_box Examples.webcam Demo.outside = Return None.
Proof.
  split; [| split].
  - apply (cascade_face_box Examples.webcam Demo.NoFace). reflexivity.
  - rewrite (proj2 (cascade_face_box Examples.webcam (Demo.looking 0 0) eq_refl)).
    reflexivity.
  - rewrite (proj2 (cascade_face_box Examples.webcam Demo.outside eq_refl)).
    reflexivity.
Defined.


Lemma load_calibration_success_witness :
  exists l w',
    load_calibration "calibration_onnx.json"
      (Demo.on_disk "calibration_onnx.json" Examples.saved_doc (Demo.started []))
    = (Return true, w')
    /\ is_calibrated (self w') = true
    /\ mapper (self w') = Some l
    /\ mapper_objs w' !! l = Some Demo.steep.
Proof.
  destruct (load_calibration_success "calibration_onnx.json"
              Examples.saved_doc Demo.steep
              (Demo.on_disk "calibration_onnx.json" Examples.saved_doc
                 (Demo.started [])))
    as (l & w' & Hrun & Hcal & Hmap & _ & Hobj & _);
    [vm_compute; reflexivity | vm_compute; reflexivity |].
  exists l, w'. auto.
Defined.


Lemma toggle_key_forgets_profile_witness :
  exists w1 w2 g s,
    handle_key Demo.ext "calibration_onnx.json" (ord "f") (Demo.filtered [])
    = (Return Continue, w1)
    /\ filter_enabled (self w1) = false
    /\ handle_key Demo.ext "calibration_onnx.json" (ord "f") w1
       = (Return Continue, w2)
    /\ filter_enabled (self w2) = true
    /\ gaze_filter (self w2) = Some g
    /\ screen_filter (self w2) = Some s
    /\ g <> s
    /\ filter_objs w2 !! g = Some (GazeFilter.mk GazeFilter.balanced None)
    /\ filter_objs w2 !! s = Some (GazeFilter.mk GazeFilter.balanced None).
Proof.
  apply (toggle_key_forgets_profile Demo.ext "calibration_onnx.json"
           (Demo.filtered []) (demo_filtered_wf [])).
  reflexivity.
Defined.

Lemma gaze_dot_inside_minimap_witness :
  exists dot_x dot_y,
    gaze_dot (init 1920 1080) 640 (1919, 0)%Q = Some (dot_x, dot_y)
    /\ (430 <= dot_x <= 630)%Z
    /\ (10 <= dot_y <= 130)%Z.
Proof.
  apply (gaze_dot_inside_minimap (init 1920 1080) 640 1919 0);
    cbn; unfold Qle; cbn; lia.
Defined.

Lemma arrow_foot_inside_frame_witness :
  exists w',
    process_frame Demo.ext (Demo.looking (1 # 10) (1 # 10)) (Demo.started [])
    = (Return (Some (1 # 10, 1 # 10)%Q, None), w')
    /\ exists x_min y_min x_max y_max,
         current_bbox (self w') = Some (x_min, y_min, x_max, y_max)
         /\ let '(cx, cy) := arrow_foot (x_min, y_min, x_max, y_max) in
            (x_min <= cx < x_max)%Z /\ (y_min <= cy < y_max)%Z
            /\ (0 <= cx < 640)%Z /\ (0 <= cy < 480)%Z.
Proof.
  eexists. split; [vm_compute; reflexivity |].
  eapply (arrow_foot_inside_frame Demo.ext
            (Demo.looking (1 # 10) (1 # 10)) (Demo.started [])).
  vm_compute. reflexivity.
Defined.

Lemma remap_unwraps_module_keys_witness :
  Convert.remap Examples.wrapped_checkpoint !! "bn1.weight" = Some 2%nat.
Proof.
  apply (remap_unwraps_module_keys Examples.wrapped_checkpoint).
  - repeat constructor; cbn; rewrite ?list_elem_of_In; cbn; intuition discriminate.
  - intros item [<- | [<- | [<- | []]]]; eexists; reflexivity.
  - cbn. tauto.
Defined.

Lemma loop_iteration_is_a_poll_witness :
  snd (main_iteration Demo.ext Examples.window "calibration_onnx.json" (-1)
         (Demo.started [Some (Demo.looking (1 # 10) 0)]))
  = snd (gaze_callback Demo.ext (Demo.started [Some (Demo.looking (1 # 10) 0)]))
  /\ fst (main_iteration Demo.ext Examples.window "calibration_onnx.json" (-1)
            (Demo.started [Some (Demo.looking (1 # 10) 0)]))
     = Return Continue.
Proof.
  assert (Hkey : ~ In (Z.land (-1) 255)
                      [ord "q"; ord "c"; ord "s"; ord "l"; ord "r"; ord "f";
                       ord "1"; ord "2"; ord "3"; ord "4"])
    by (cbn; intuition discriminate).
  split.
  - exact (proj1 (loop_iteration_is_a_poll Demo.ext Examples.window
                    "calibration_onnx.json" (-1)
                    (Demo.started [Some (Demo.looking (1 # 10) 0)]) Hkey)).
  - vm_compute. reflexivity.
Defined.

Lemma failed_read_skips_the_key_witness :
  main_iteration Demo.ext Examples.window "calibration_onnx.json" (ord "q") (Demo.started [None])
  = (Return Continue, Demo.started []).
Proof.
  apply (failed_read_skips_the_key Demo.ext Examples.window "calibration_onnx.json" (ord "q")
           (Demo.started [None])).
  intros frame. cbn. discriminate.
Defined.
